(** * dbt-goverage: the reconciliation engine of [main.go]

    A shallow embedding of the functions of [main.go] that build the
    manifest index, build the catalog, annotate it, filter it and fold it
    into a coverage report, together with the properties of the
    specification that concern them.

    Conventions of the embedding.
    - A decoded JSON document ([interface{}] after [json.Unmarshal]) is a
      [value]; a Go [map[string]T] is a [gmap string T]; a [range] over a
      map is a [map_fold] (Go leaves the order unspecified, so does
      the embedding: no statement below depends on it).
    - A function that can abort by a runtime panic returns in [run];
      a Go result [(T, error)] is a pair [(T * option error)], the zero
      value of [T] standing next to a non-nil error as in the source.
    - A Go [int] is a [Z] (column counts stay far below 2^63), a
      [float64] is a primitive binary64 [float].
    - [log.Printf] calls and the console rendering have no effect on any
      returned value and are left out. *)

From Stdlib Require Import ZArith Floats Uint63 Ascii.
From stdpp Require Import gmap strings list fin_maps.

Set Warnings "-register-all".
Local Open Scope Z_scope.

(** ** Decoded JSON *)

Inductive value : Type :=
  | VNil
  | VBool (b : bool)
  | VNum (x : float)
  | VStr (s : string)
  | VArr (l : list value)
  | VObj (o : gmap string value).

(** [m[k]] on a [map[string]interface{}]: the nil interface when absent. *)
Definition index (m : gmap string value) (k : string) : value :=
  default VNil (m !! k).

(** [v.(string)], [v.(map[string]interface{})], [v.([]interface{})]
    in their two-result form. *)
Definition asString (v : value) : option string :=
  match v with VStr s => Some s | _ => None end.

Definition asObject (v : value) : option (gmap string value) :=
  match v with VObj o => Some o | _ => None end.

Definition asArray (v : value) : option (list value) :=
  match v with VArr l => Some l | _ => None end.

(** ** Outcomes: normal return or runtime panic *)

Inductive run (A : Type) : Type :=
  | Done (a : A)
  | Panic.
Arguments Done {A} a.
Arguments Panic {A}.

#[global] Instance run_ret : MRet run := fun _ a => Done a.
#[global] Instance run_bind : MBind run := fun _ _ f r =>
  match r with
  | Done a => f a
  | Panic => Panic
  end.

(** Unfolds the sequencing of [run]. *)
Ltac run_simpl :=
  unfold mbind, run_bind, mret, run_ret in *; simpl in *.

(** ** Errors built by the program ([errors.New], [fmt.Errorf]) *)

Inductive error : Type :=
  | ErrUniqueIDInvalid                 (* "unique_id absent ou invalide" *)
  | ErrNotInManifest (id : string)     (* "unique_id %s non trouve dans le manifest" *)
  | ErrTableNotFound (id : string)     (* "table %s non trouvee" *)
  | ErrDuplicateID (id : string)       (* "unique_id %s en double" *)
  | ErrManifestMissing (path : string) (* "manifest.json non trouve dans %s" *)
  | ErrCatalogMissing (path : string)  (* "catalog.json non trouve dans %s" *)
  | ErrNoTablesAfterFilter             (* "aucune table apres filtrage, verifiez path_filter" *)
  | ErrExternal (msg : string).        (* an error of os or encoding/json *)

(** ** Data model *)

(** [type CoverageType string]: the value of the [--type] flag. *)
Definition CoverageType : Type := string.
Definition CoverageTypeDoc : CoverageType := "doc".
Definition CoverageTypeTest : CoverageType := "test".

Module Column.
Record t : Type := mk { Name : string; Doc : bool; Test : bool }.
End Column.

Module Table.
Record t : Type := mk {
    UniqueID : string;
    Name : string;
    OriginalFilePath : string;
    Columns : gmap string Column.t
  }.
(** [Table{}] *)
Definition zero : t := mk "" "" "" ∅.
End Table.

Module Catalog.
Record t : Type := mk { Tables : gmap string Table.t }.
(** [Catalog{}]: the nil map has no entry, like the empty one. *)
Definition zero : t := mk ∅.
End Catalog.

Module Manifest.
Record t : Type := mk {
    Sources : gmap string (gmap string value);
    Models : gmap string (gmap string value);
    Seeds : gmap string (gmap string value);
    Snapshots : gmap string (gmap string value);
    Tests : gmap string (gmap string (list value))
  }.
End Manifest.

Module ColumnReport.
Record t : Type := mk {
    Name : string; Covered : Z; Total : Z; Coverage : float
  }.
End ColumnReport.

Module TableReport.
Record t : Type := mk {
    Name : string; Covered : Z; Total : Z; Coverage : float;
    Columns : list ColumnReport.t
  }.
End TableReport.

Module JSONReport.
Record t : Type := mk {
    CovType : CoverageType; Covered : Z; Total : Z; Coverage : float;
    Tables : list TableReport.t
  }.
End JSONReport.

(** [float64(n)] for a non-negative count. *)
Definition float64 (n : Z) : float := PrimFloat.of_uint63 (Uint63.of_Z n).

(** ** Functions that do not depend on the host *)

Definition IsValidDoc (doc : value) : bool :=
  match doc with
  | VStr s => negb (String.eqb s "")
  | _ => false
  end.

Definition IsValidTest (tests : list value) : bool :=
  (0 <? Z.of_nat (length tests)).

Definition GetTable (m : Manifest.t) (tableID : string)
  : gmap string value * option error :=
  let candidates : list (gmap string value) := [] in
  let candidates :=
    match Manifest.Sources m !! tableID with
    | Some v => candidates ++ [v] | None => candidates end in
  let candidates :=
    match Manifest.Models m !! tableID with
    | Some v => candidates ++ [v] | None => candidates end in
  let candidates :=
    match Manifest.Seeds m !! tableID with
    | Some v => candidates ++ [v] | None => candidates end in
  let candidates :=
    match Manifest.Snapshots m !! tableID with
    | Some v => candidates ++ [v] | None => candidates end in
  if (Z.of_nat (length candidates) =? 0) then
    (∅, Some (ErrTableNotFound tableID))
  else if (1 <? Z.of_nat (length candidates)) then
    (∅, Some (ErrDuplicateID tableID))
  else
    (default ∅ (head candidates), None).

(** The body of the loop over the columns of a table in
    [computeJSONReport] (lines 351-368). *)
Definition columnReport (covType : CoverageType) (col : Column.t)
  : ColumnReport.t :=
  let colTotal := 1 in
  let colCovered :=
    if String.eqb covType CoverageTypeDoc then
      (if Column.Doc col then 1 else 0)
    else if String.eqb covType CoverageTypeTest then
      (if Column.Test col then 1 else 0)
    else 0 in
  ColumnReport.mk (Column.Name col) colCovered colTotal
    (PrimFloat.div (float64 colCovered) (float64 colTotal)).

(** The loop over the columns of a table (lines 350-371): the column
    reports with the two running sums. *)
Definition columnReports (covType : CoverageType)
    (columns : gmap string Column.t) : list ColumnReport.t * Z * Z :=
  map_fold (fun (_ : string) col '(cols, tableCovered, tableTotal) =>
              let r := columnReport covType col in
              (cols ++ [r],
               tableCovered + ColumnReport.Covered r,
               tableTotal + ColumnReport.Total r))
           ([], 0, 0) columns.

(** The body of the loop over the tables (lines 347-378). *)
Definition tableReport (covType : CoverageType) (table : Table.t)
  : TableReport.t :=
  let '(cols, tableCovered, tableTotal) :=
    columnReports covType (Table.Columns table) in
  TableReport.mk (Table.Name table) tableCovered tableTotal
    (PrimFloat.div (float64 tableCovered) (float64 tableTotal)) cols.

(** The loop over the tables (lines 346-381). *)
Definition tableReports (covType : CoverageType)
    (tables : gmap string Table.t) : list TableReport.t * Z * Z :=
  map_fold (fun (_ : string) table '(tables, globalCovered, globalTotal) =>
              let r := tableReport covType table in
              (tables ++ [r],
               globalCovered + TableReport.Covered r,
               globalTotal + TableReport.Total r))
           ([], 0, 0) tables.

Definition computeJSONReport (catalog : Catalog.t) (covType : CoverageType)
  : JSONReport.t :=
  let '(tables, globalCovered, globalTotal) :=
    tableReports covType (Catalog.Tables catalog) in
  let globalCoverage :=
    if (0 <? globalTotal)
    then PrimFloat.div (float64 globalCovered) (float64 globalTotal)
    else 0%float in
  JSONReport.mk covType globalCovered globalTotal globalCoverage tables.

(** ** The detailed report of the console *)

Module TableCoverage.
Record t : Type := mk { ModelName : string; Covered : Z; Total : Z }.
End TableCoverage.

Module DetailedCoverageReport.
Record t : Type := mk {
  TableReports : list TableCoverage.t;
  TotalCovered : Z;
  TotalColumns : Z;
  TableCount : Z;
  CovType : CoverageType
}.
End DetailedCoverageReport.

(** The loop over the columns in [computeDetailedCoverage]
    (lines 403-415): [(tCovered, tTotal)]. *)
Definition columnCounts (covType : CoverageType)
    (columns : gmap string Column.t) : Z * Z :=
  map_fold (fun (_ : string) col '(tCovered, tTotal) =>
              let tTotal := tTotal + 1 in
              let tCovered :=
                if String.eqb covType CoverageTypeDoc then
                  (if Column.Doc col then tCovered + 1 else tCovered)
                else if String.eqb covType CoverageTypeTest then
                  (if Column.Test col then tCovered + 1 else tCovered)
                else tCovered in
              (tCovered, tTotal))
           (0, 0) columns.

(** The body of the loop over the tables (lines 401-420). *)
Definition tableCoverage (covType : CoverageType) (table : Table.t)
  : TableCoverage.t :=
  let '(tCovered, tTotal) := columnCounts covType (Table.Columns table) in
  TableCoverage.mk (Table.Name table) tCovered tTotal.

Definition computeDetailedCoverage (catalog : Catalog.t)
    (covType : CoverageType) : DetailedCoverageReport.t :=
  let '(reports, totalCovered, totalColumns) :=
    map_fold (fun (_ : string) table '(reports, totalCovered, totalColumns) =>
                let r := tableCoverage covType table in
                (reports ++ [r],
                 totalCovered + TableCoverage.Covered r,
                 totalColumns + TableCoverage.Total r))
             ([], 0, 0) (Catalog.Tables catalog) in
  DetailedCoverageReport.mk reports totalCovered totalColumns
    (Z.of_nat (size (Catalog.Tables catalog))) covType.

(** What the console shows of a table report of the JSON report. *)
Definition summaryOf (t : TableReport.t) : TableCoverage.t :=
  TableCoverage.mk (TableReport.Name t) (TableReport.Covered t)
    (TableReport.Total t).

(** The sum of a list of counts. *)
Definition sumZ (l : list Z) : Z := foldr Z.add 0 l.

(** The partitions of a manifest that hold [tableID], in the order
    [GetTable] probes them. *)
Definition holders (m : Manifest.t) (tableID : string)
  : list (gmap string value) :=
  omap (fun part : gmap string (gmap string value) => part !! tableID)
       [Manifest.Sources m; Manifest.Models m;
        Manifest.Seeds m; Manifest.Snapshots m].

(** The partition of a manifest that [ManifestFromNodes] fills for a
    [resource_type], empty for any other. *)
Definition partitionOf (m : Manifest.t) (resourceType : string)
  : gmap string (gmap string value) :=
  if String.eqb resourceType "source" then Manifest.Sources m
  else if String.eqb resourceType "model" then Manifest.Models m
  else if String.eqb resourceType "seed" then Manifest.Seeds m
  else if String.eqb resourceType "snapshot" then Manifest.Snapshots m
  else ∅.

(** ** A host and documents for concrete runs *)

(** An object given by its fields. *)
Definition object (fields : list (string * value)) : gmap string value :=
  list_to_map fields.

(** [strings.ToLower] on ASCII text. *)
Definition lowerByte (c : Ascii.ascii) : Ascii.ascii :=
  let n := Ascii.N_of_ascii c in
  if ((65 <=? n) && (n <=? 90))%N then Ascii.ascii_of_N (n + 32) else c.

Fixpoint asciiToLower (s : string) : string :=
  match s with
  | EmptyString => EmptyString
  | String c rest => String (lowerByte c) (asciiToLower rest)
  end.

(** [filepath.Join] on clean, non-empty elements of a slash host. *)
Definition slashJoin (elems : list string) : string :=
  String.concat "/" elems.

(** A directory [target] with the two artifacts, whose texts decode to
    the given documents. *)
Definition hostIsNotExist (path : string) : bool :=
  negb (String.eqb path "target/manifest.json"
        || String.eqb path "target/catalog.json").

Definition hostReadFile (path : string) : string * option string :=
  if String.eqb path "target/manifest.json" then ("<manifest>", None)
  else if String.eqb path "target/catalog.json" then ("<catalog>", None)
  else ("", Some "no such file or directory").

Definition hostUnmarshal (manifestJSON catalogJSON : gmap string value)
    (data : string) : gmap string value * option string :=
  if String.eqb data "<manifest>" then (manifestJSON, None)
  else if String.eqb data "<catalog>" then (catalogJSON, None)
  else (∅, Some "unexpected end of JSON input").

(** [encoding/json] refuses a NaN with an [UnsupportedValueError]. *)
Definition hostMarshalIndent (report : JSONReport.t)
  : string * option string :=
  if PrimFloat.is_nan (JSONReport.Coverage report)
     || existsb (fun t => PrimFloat.is_nan (TableReport.Coverage t))
          (JSONReport.Tables report)
  then ("", Some "json: unsupported value: NaN")
  else ("<report>", None).

Definition hostWriteFile (path data : string) : option string := None.

(** The model [analytics.users] with a documented column [id] and an
    undocumented, tested column [email]. *)
Definition usersModelNode : gmap string value :=
  object [("resource_type", VStr "model");
          ("unique_id", VStr "model.shop.users");
          ("schema", VStr "analytics");
          ("name", VStr "users");
          ("original_file_path", VStr "models/marts/users.sql");
          ("columns",
           VObj (object
             [("id", VObj (object [("name", VStr "id");
                                   ("description", VStr "pk")]));
              ("email", VObj (object [("name", VStr "email");
                                      ("description", VStr "")]))]))].

Definition emailTestNode : gmap string value :=
  object [("resource_type", VStr "test");
          ("unique_id", VStr "test.shop.not_null_users_email");
          ("test_metadata",
           VObj (object [("name", VStr "not_null");
                         ("kwargs",
                          VObj (object [("column_name", VStr "email")]))]));
          ("depends_on",
           VObj (object [("nodes", VArr [VStr "model.shop.users"])]))].

Definition usersManifestJSON : gmap string value :=
  object [("sources", VObj ∅);
          ("nodes",
           VObj (object
             [("model.shop.users", VObj usersModelNode);
              ("test.shop.not_null_users_email", VObj emailTestNode)]))].

Definition usersCatalogNode : gmap string value :=
  object [("unique_id", VStr "model.shop.users");
          ("columns",
           VObj (object
             [("ID", VObj (object [("name", VStr "ID")]));
              ("EMAIL", VObj (object [("name", VStr "EMAIL")]))]))].

Definition usersCatalogJSON : gmap string value :=
  object [("sources", VObj ∅);
          ("nodes",
           VObj (object [("model.shop.users", VObj usersCatalogNode)]))].

(** The same table as the catalog sees it before any column exists. *)
Definition emptyCatalogNode : gmap string value :=
  object [("unique_id", VStr "model.shop.users"); ("columns", VObj ∅)].

Definition emptyCatalogJSON : gmap string value :=
  object [("sources", VObj ∅);
          ("nodes",
           VObj (object [("model.shop.users", VObj emptyCatalogNode)]))].

(** One identifier declared twice: as a source in [sources] and as a
    model in [nodes], under the same key. *)
Definition twiceSourceNode : gmap string value :=
  object [("resource_type", VStr "source");
          ("unique_id", VStr "shop.users");
          ("schema", VStr "raw");
          ("name", VStr "users")].

Definition twiceModelNode : gmap string value :=
  object [("resource_type", VStr "model");
          ("unique_id", VStr "shop.users");
          ("schema", VStr "analytics");
          ("name", VStr "users")].

Definition twiceManifestJSON : gmap string value :=
  object [("sources", VObj (object [("shop.users", VObj twiceSourceNode)]));
          ("nodes", VObj (object [("shop.users", VObj twiceModelNode)]))].

(** The same two declarations under two different keys. *)
Definition twiceKeyedManifestJSON : gmap string value :=
  object [("sources", VObj (object [("source.shop.users", VObj twiceSourceNode)]));
          ("nodes", VObj (object [("model.shop.users", VObj twiceModelNode)]))].

Definition twiceCatalogNode : gmap string value :=
  object [("unique_id", VStr "shop.users");
          ("columns", VObj (object [("id", VObj (object [("name", VStr "id")]))]))].

Definition twiceCatalogJSON : gmap string value :=
  object [("sources", VObj ∅);
          ("nodes", VObj (object [("shop.users", VObj twiceCatalogNode)]))].

(** A catalog node one of whose columns has no [name]. *)
Definition namelessColumnNode : gmap string value :=
  object [("unique_id", VStr "model.shop.users");
          ("columns", VObj (object [("id", VObj ∅)]))].

(** Two tables whose origin paths were recorded on a backslash host. *)
Definition martsTable : Table.t :=
  Table.mk "model.shop.a" "analytics.a" "models\marts\a.sql" ∅.

Definition stagingTable : Table.t :=
  Table.mk "model.shop.b" "analytics.b" "models\staging\b.sql" ∅.

Definition pathsCatalog : Catalog.t :=
  Catalog.mk (<["model.shop.a" := martsTable]>
                (<["model.shop.b" := stagingTable]> ∅)).

(** The catalog document of a project without any table. *)
Definition noNodesCatalogJSON : gmap string value :=
  object [("sources", VObj ∅); ("nodes", VObj ∅)].

(** What the two [users] documents reconcile to. *)
Definition usersLoadedTable : Table.t :=
  Table.mk "model.shop.users" "analytics.users" "models/marts/users.sql"
    (<["id" := Column.mk "id" true false]>
       (<["email" := Column.mk "email" false true]> ∅)).

Definition usersLoadedCatalog : Catalog.t :=
  Catalog.mk (<["model.shop.users" := usersLoadedTable]> ∅).

(** What the [users] manifest and the column-less catalog reconcile to. *)
Definition zeroColumnCatalog : Catalog.t :=
  Catalog.mk
    (<["model.shop.users" :=
         Table.mk "model.shop.users" "analytics.users"
           "models/marts/users.sql" ∅]> ∅).

(** What the twice-declared identifier reconciles to. *)
Definition twiceLoadedCatalog : Catalog.t :=
  Catalog.mk
    (<["shop.users" :=
         Table.mk "shop.users" "analytics.users" ""
           (<["id" := Column.mk "id" false false]> ∅)]> ∅).

(** A manifest index with the one model, and one whose model node has
    no [name]. *)
Definition smallManifest : Manifest.t :=
  Manifest.mk ∅
    (<["model.shop.users" := object [("name", VStr "analytics.users")]]> ∅)
    ∅ ∅ ∅.

Definition namelessManifest : Manifest.t :=
  Manifest.mk ∅ (<["model.shop.users" := ∅]> ∅) ∅ ∅ ∅.

Definition emptyManifest : Manifest.t := Manifest.mk ∅ ∅ ∅ ∅ ∅.

(** A catalog node without [unique_id]. *)
Definition anonymousCatalogNode : gmap string value :=
  object [("columns", VObj ∅)].

(** A manifest table one of whose columns has no [name]. *)
Definition namelessColumnTable : gmap string value :=
  object [("name", VStr "users");
          ("columns", VObj (object [("id", VObj ∅)]))].

(** Test declarations: a [relationships] test on two tables, a test
    whose column is only given by [kwargs.arg], and one without any
    column. *)
Definition relationshipsTestNode : gmap string value :=
  object [("resource_type", VStr "test");
          ("column_name", VStr "User_ID");
          ("test_metadata", VObj (object [("name", VStr "relationships")]));
          ("depends_on",
           VObj (object [("nodes", VArr [VStr "modelA"; VStr "modelB"])]))].

Definition argTestNode : gmap string value :=
  object [("resource_type", VStr "test");
          ("test_metadata",
           VObj (object [("name", VStr "not_null");
                         ("kwargs", VObj (object [("arg", VStr "user_id")]))]));
          ("depends_on", VObj (object [("nodes", VArr [VStr "modelA"])]))].

Definition columnlessTestNode : gmap string value :=
  object [("resource_type", VStr "test");
          ("test_metadata", VObj (object [("name", VStr "not_null")]));
          ("depends_on", VObj (object [("nodes", VArr [VStr "modelA"])]))].

(** A manifest document whose model has a column without [name]. *)
Definition namelessColumnModelNode : gmap string value :=
  object [("resource_type", VStr "model");
          ("unique_id", VStr "model.shop.users");
          ("schema", VStr "analytics");
          ("name", VStr "users");
          ("columns", VObj (object [("id", VObj ∅)]))].

Definition namelessManifestJSON : gmap string value :=
  object [("sources", VObj ∅);
          ("nodes",
           VObj (object [("model.shop.users", VObj namelessColumnModelNode)]))].

(** A [relationships] test whose last dependency is not a string. *)
Definition numberedTestNode : gmap string value :=
  object [("resource_type", VStr "test");
          ("column_name", VStr "user_id");
          ("test_metadata", VObj (object [("name", VStr "relationships")]));
          ("depends_on",
           VObj (object [("nodes", VArr [VStr "modelA"; VNum 7%float])]))].

(** Collections of manifest nodes that hold one test declaration. *)
Definition relationshipsNodes : gmap string value :=
  object [("test.shop.relationships", VObj relationshipsTestNode)].

Definition numberedNodes : gmap string value :=
  object [("test.shop.relationships", VObj numberedTestNode)].

Definition argNodes : gmap string value :=
  object [("test.shop.not_null", VObj argTestNode)].

Definition columnlessNodes : gmap string value :=
  object [("test.shop.not_null", VObj columnlessTestNode)].

(** ** Functions that depend on the host and on the Go library

    [Separator] is [os.PathSeparator]; [ToLower] is [strings.ToLower];
    [Join] is [filepath.Join]; the last five stand for [os.Stat] with
    [os.IsNotExist], [os.ReadFile], [json.Unmarshal] into a
    [map[string]interface{}], [json.MarshalIndent] and [os.WriteFile],
    an error of theirs being reported by its text. *)

Section Host.

Variable Separator : Ascii.ascii.
Variable ToLower : string -> string.
Variable Join : list string -> string.
Variable IsNotExist : string -> bool.
Variable ReadFile : string -> string * option string.
Variable Unmarshal : string -> gmap string value * option string.
Variable MarshalIndent : JSONReport.t -> string * option string.
Variable WriteFile : string -> string -> option string.

(** [strings.ReplaceAll(path, string(old), string(new))] for one-byte
    [old] and [new]. *)
Fixpoint replaceByte (old new : Ascii.ascii) (path : string) : string :=
  match path with
  | EmptyString => EmptyString
  | String c rest =>
      String (if Ascii.eqb c old then new else c) (replaceByte old new rest)
  end.

(** [filepath.ToSlash] *)
Definition ToSlash (path : string) : string :=
  if Ascii.eqb Separator "/"%char then path
  else replaceByte Separator "/"%char path.

Definition NewColumnFromNode (node : gmap string value) : run Column.t :=
  match asString (index node "name") with
  | Some s => Done (Column.mk (ToLower s) false false)
  | None => Panic
  end.

(** The loop of lines 131-136 over [node["columns"]]. *)
Definition columnsFromRaw (columnsRaw : gmap string value)
  : run (gmap string Column.t) :=
  map_fold (fun (_ : string) v (acc : run (gmap string Column.t)) =>
              cols ← acc;
              match asObject v with
              | Some colNode =>
                  col ← NewColumnFromNode colNode;
                  Done (<[Column.Name col := col]> cols)
              | None => Done cols
              end)
           (Done ∅) columnsRaw.

Definition NewTableFromNode (node : gmap string value) (manifest : Manifest.t)
  : run (Table.t * option error) :=
  match asString (index node "unique_id") with
  | None => Done (Table.zero, Some ErrUniqueIDInvalid)
  | Some uniqueID =>
      let '(manifestTable, err) := GetTable manifest uniqueID in
      match err with
      | Some _ => Done (Table.zero, Some (ErrNotInManifest uniqueID))
      | None =>
          cols ← match asObject (index node "columns") with
                 | Some columnsRaw => columnsFromRaw columnsRaw
                 | None => Done ∅
                 end;
          let origPath :=
            match asString (index manifestTable "original_file_path") with
            | Some v => v
            | None => ""
            end in
          match asString (index manifestTable "name") with
          | None => Panic
          | Some n => Done (Table.mk uniqueID (ToLower n) origPath cols, None)
          end
      end
  end.

(** The inner loop of [FilterTables], with its [break]. *)
Fixpoint matchesFilter (originalPath : string) (modelPathFilter : list string)
  : bool :=
  match modelPathFilter with
  | [] => false
  | filt :: rest =>
      let normalizedFilt := ToSlash filt in
      if String.prefix normalizedFilt originalPath then true
      else matchesFilter originalPath rest
  end.

Definition FilterTables (c : Catalog.t) (modelPathFilter : list string)
  : Catalog.t :=
  let filtered :=
    map_fold (fun id table (filtered : gmap string Table.t) =>
                let originalPath := ToSlash (Table.OriginalFilePath table) in
                if matchesFilter originalPath modelPathFilter
                then <[id := table]> filtered
                else filtered)
             ∅ (Catalog.Tables c) in
  Catalog.mk filtered.

(** The loop of [CatalogFromNodes] from a given state of [tables]. *)
Fixpoint catalogLoop (nodes : list value) (manifest : Manifest.t)
    (tables : gmap string Table.t) : run (Catalog.t * option error) :=
  match nodes with
  | [] => Done (Catalog.mk tables, None)
  | n :: rest =>
      match asObject n with
      | Some node =>
          '(table, err) ← NewTableFromNode node manifest;
          match err with
          | Some e => Done (Catalog.zero, Some e)
          | None =>
              catalogLoop rest manifest (<[Table.UniqueID table := table]> tables)
          end
      | None => catalogLoop rest manifest tables
      end
  end.

Definition CatalogFromNodes (nodes : list value) (manifest : Manifest.t)
  : run (Catalog.t * option error) :=
  catalogLoop nodes manifest ∅.

(** The loop of lines 307-313 over the columns of a manifest table. *)
Definition normalizeColumns (cols : gmap string value)
  : run (gmap string value) :=
  map_fold (fun (_ : string) v (acc : run (gmap string value)) =>
              normCols ← acc;
              match asObject v with
              | Some col =>
                  match asString (index col "name") with
                  | Some s =>
                      let name := ToLower s in
                      let col := <["name" := VStr name]> col in
                      Done (<[name := VObj col]> normCols)
                  | None => Panic
                  end
              | None => Done normCols
              end)
           (Done ∅) cols.

Definition normalizeTable (table : gmap string value)
  : run (gmap string value) :=
  table ← match asObject (index table "columns") with
          | Some cols =>
              normCols ← normalizeColumns cols;
              Done (<["columns" := VObj normCols]> table)
          | None => Done table
          end;
  let table :=
    match asString (index table "original_file_path") with
    | Some pathStr => <["original_file_path" := VStr (ToSlash pathStr)]> table
    | None => table
    end in
  let schema := default "" (asString (index table "schema")) in
  let name := default "" (asString (index table "name")) in
  Done (<["name" := VStr (ToLower (schema ++ "." ++ name))]> table).

(** Lines 252-261: the table a test declaration is attributed to. *)
Definition resolveTableID (testName : string) (nodesDep : list value)
  : string :=
  if String.eqb testName "relationships" then
    match last nodesDep ≫= asString with
    | Some lst => lst
    | None => ""
    end
  else
    match head nodesDep ≫= asString with
    | Some first => first
    | None => ""
    end.

(** Lines 262-283: the column a test declaration is attributed to,
    before lowercasing; [""] when none is found. *)
Definition resolveColumnName (node testMeta : gmap string value) : string :=
  let columnName :=
    match node !! "column_name" with
    | Some (VStr s) => s
    | _ => ""
    end in
  if String.eqb columnName "" then
    match asObject (index testMeta "kwargs") with
    | Some kwargs =>
        let columnName :=
          match kwargs !! "column_name" with
          | Some (VStr s) => s
          | _ => columnName
          end in
        if String.eqb columnName "" then
          match kwargs !! "arg" with
          | Some (VStr s) => s
          | _ => columnName
          end
        else columnName
    | None => columnName
    end
  else columnName.

(** Lines 236-287: the key [(tableID, columnName)] of a test node, [None]
    on each [continue]. *)
Definition testKey (node : gmap string value) : option (string * string) :=
  match node !! "test_metadata" with
  | None => None
  | Some _ =>
      match asObject (index node "depends_on") with
      | None => None
      | Some dependsRaw =>
          match asArray (index dependsRaw "nodes") with
          | None => None
          | Some nodesDep =>
              if (Z.of_nat (length nodesDep) =? 0) then None
              else
                match asObject (index node "test_metadata") with
                | None => None
                | Some testMeta =>
                    let testName :=
                      default "" (asString (index testMeta "name")) in
                    let tableID := resolveTableID testName nodesDep in
                    let columnName := resolveColumnName node testMeta in
                    if String.eqb columnName "" then None
                    else Some (tableID, ToLower columnName)
                end
          end
      end
  end.

(** Lines 288-291: [tests[tableID][columnName] = append(..., node)]. *)
Definition appendTest (tests : gmap string (gmap string (list value)))
    (tableID columnName : string) (node : gmap string value)
  : gmap string (gmap string (list value)) :=
  let byColumn := default ∅ (tests !! tableID) in
  <[tableID := <[columnName := default [] (byColumn !! columnName) ++ [VObj node]]> byColumn]>
    tests.

(** The [case "test"] of [ManifestFromNodes]. *)
Definition addTest (tests : gmap string (gmap string (list value)))
    (node : gmap string value) : gmap string (gmap string (list value)) :=
  match testKey node with
  | Some (tableID, columnName) => appendTest tests tableID columnName node
  | None => tests
  end.

(** The body of the loop of [ManifestFromNodes] on one entry. *)
Definition manifestStep (v : value) (m : Manifest.t) : run Manifest.t :=
  match asObject v with
  | None => Done m
  | Some node =>
      let resourceType := default "" (asString (index node "resource_type")) in
      let id := default "" (asString (index node "unique_id")) in
      if String.eqb resourceType "source" then
        t ← normalizeTable node;
        Done (Manifest.mk (<[id := t]> (Manifest.Sources m)) (Manifest.Models m)
                (Manifest.Seeds m) (Manifest.Snapshots m) (Manifest.Tests m))
      else if String.eqb resourceType "model" then
        t ← normalizeTable node;
        Done (Manifest.mk (Manifest.Sources m) (<[id := t]> (Manifest.Models m))
                (Manifest.Seeds m) (Manifest.Snapshots m) (Manifest.Tests m))
      else if String.eqb resourceType "seed" then
        t ← normalizeTable node;
        Done (Manifest.mk (Manifest.Sources m) (Manifest.Models m)
                (<[id := t]> (Manifest.Seeds m)) (Manifest.Snapshots m)
                (Manifest.Tests m))
      else if String.eqb resourceType "snapshot" then
        t ← normalizeTable node;
        Done (Manifest.mk (Manifest.Sources m) (Manifest.Models m)
                (Manifest.Seeds m) (<[id := t]> (Manifest.Snapshots m))
                (Manifest.Tests m))
      else if String.eqb resourceType "test" then
        Done (Manifest.mk (Manifest.Sources m) (Manifest.Models m)
                (Manifest.Seeds m) (Manifest.Snapshots m)
                (addTest (Manifest.Tests m) node))
      else Done m
  end.

(** The returned error is nil on every path. *)
Definition ManifestFromNodes (manifestNodes : gmap string value)
  : run (Manifest.t * option error) :=
  m ← map_fold (fun (_ : string) v (acc : run Manifest.t) =>
                  m ← acc; manifestStep v m)
               (Done (Manifest.mk ∅ ∅ ∅ ∅ ∅)) manifestNodes;
  Done (m, None).

(** [for k, v := range src { dst[k] = v }] *)
Definition copyInto (src dst : gmap string value) : gmap string value :=
  map_fold (fun k v (dst : gmap string value) => <[k := v]> dst) dst src.

(** Lines 509-519: the two collections of the manifest document poured
    into one map. *)
Definition mergedNodes (manifestJSON : gmap string value)
  : gmap string value :=
  let nodes : gmap string value := ∅ in
  let nodes :=
    match asObject (index manifestJSON "sources") with
    | Some sources => copyInto sources nodes
    | None => nodes
    end in
  match asObject (index manifestJSON "nodes") with
  | Some n => copyInto n nodes
  | None => nodes
  end.

(** Lines 491-496 *)
Definition manifestPathOf (projectDir runArtifactsDir : string) : string :=
  if String.eqb runArtifactsDir "" then
    Join [projectDir; "target"; "manifest.json"]
  else Join [runArtifactsDir; "manifest.json"].

(** The nil [*Manifest] next to an error is written as the empty
    manifest; no caller reads it. [checkManifestVersion] only logs. *)
Definition loadManifest (projectDir runArtifactsDir : string)
  : run (Manifest.t * option error) :=
  let nilManifest := Manifest.mk ∅ ∅ ∅ ∅ ∅ in
  let manifestPath := manifestPathOf projectDir runArtifactsDir in
  if IsNotExist manifestPath then
    Done (nilManifest, Some (ErrManifestMissing manifestPath))
  else
    let '(data, err) := ReadFile manifestPath in
    match err with
    | Some e => Done (nilManifest, Some (ErrExternal e))
    | None =>
        let '(manifestJSON, err) := Unmarshal data in
        match err with
        | Some e => Done (nilManifest, Some (ErrExternal e))
        | None => ManifestFromNodes (mergedNodes manifestJSON)
        end
    end.

(** Lines 541-551: the nodes of the catalog document, test results
    left out. *)
Definition catalogNodesOf (catalogJSON : gmap string value) : list value :=
  foldl (fun (catalogNodes : list value) key =>
           match asObject (index catalogJSON key) with
           | Some group =>
               map_fold (fun id node (catalogNodes : list value) =>
                           if String.prefix "test." id then catalogNodes
                           else catalogNodes ++ [node])
                        catalogNodes group
           | None => catalogNodes
           end)
        [] ["sources"; "nodes"].

(** Lines 524-529 *)
Definition catalogPathOf (projectDir runArtifactsDir : string) : string :=
  if String.eqb runArtifactsDir "" then
    Join [projectDir; "target"; "catalog.json"]
  else Join [runArtifactsDir; "catalog.json"].

Definition loadCatalog (projectDir runArtifactsDir : string)
    (manifest : Manifest.t) : run (Catalog.t * option error) :=
  let catalogPath := catalogPathOf projectDir runArtifactsDir in
  if IsNotExist catalogPath then
    Done (Catalog.zero, Some (ErrCatalogMissing catalogPath))
  else
    let '(data, err) := ReadFile catalogPath in
    match err with
    | Some e => Done (Catalog.zero, Some (ErrExternal e))
    | None =>
        let '(catalogJSON, err) := Unmarshal data in
        match err with
        | Some e => Done (Catalog.zero, Some (ErrExternal e))
        | None => CatalogFromNodes (catalogNodesOf catalogJSON) manifest
        end
    end.

(** Lines 571-580: the manifest node of a table, the first partition
    that has it; [None] is the nil map. *)
Definition manifestTableOf (manifest : Manifest.t) (tableID : string)
  : option (gmap string value) :=
  match Manifest.Sources manifest !! tableID with
  | Some v => Some v
  | None =>
      match Manifest.Models manifest !! tableID with
      | Some v => Some v
      | None =>
          match Manifest.Seeds manifest !! tableID with
          | Some v => Some v
          | None => Manifest.Snapshots manifest !! tableID
          end
      end
  end.

(** Lines 581-586 *)
Definition manifestColumnsOf (manifest : Manifest.t) (tableID : string)
  : option (gmap string value) :=
  match manifestTableOf manifest tableID with
  | Some manifestTable => asObject (index manifestTable "columns")
  | None => None
  end.

(** Lines 589-600: [desc], the description the manifest gives for a
    column of a table, nil when it gives none. *)
Definition columnDescription (manifest : Manifest.t)
    (tableID colName : string) : value :=
  let colInfo :=
    match manifestColumnsOf manifest tableID with
    | Some manifestColumns =>
        match manifestColumns !! colName with
        | Some v => asObject v
        | None => None
        end
    | None => None
    end in
  match colInfo with
  | Some colInfo => index colInfo "description"
  | None => VNil
  end.

(** Lines 587 and 602-605: [testsForCol]. *)
Definition testsForColumn (manifest : Manifest.t)
    (tableID colName : string) : list value :=
  match Manifest.Tests manifest !! tableID with
  | Some manifestTableTests => default [] (manifestTableTests !! colName)
  | None => []
  end.

(** Lines 601-607: the column as it is written back. *)
Definition annotateColumn (manifest : Manifest.t)
    (tableID colName : string) (col : Column.t) : Column.t :=
  Column.mk (Column.Name col)
    (IsValidDoc (columnDescription manifest tableID colName))
    (IsValidTest (testsForColumn manifest tableID colName)).

(** Lines 588-609: the columns map is updated in place while it is
    ranged over; [table.Columns] is the same map afterwards. *)
Definition annotateTable (manifest : Manifest.t) (tableID : string)
    (table : Table.t) : Table.t :=
  let columns :=
    map_fold (fun colName col (columns : gmap string Column.t) =>
                <[colName := annotateColumn manifest tableID colName col]> columns)
             (Table.Columns table) (Table.Columns table) in
  Table.mk (Table.UniqueID table) (Table.Name table)
    (Table.OriginalFilePath table) columns.

(** Lines 570-610 *)
Definition annotateCatalog (manifest : Manifest.t) (catalog : Catalog.t)
  : Catalog.t :=
  Catalog.mk
    (map_fold (fun tableID table (tables : gmap string Table.t) =>
                 <[tableID := annotateTable manifest tableID table]> tables)
              (Catalog.Tables catalog) (Catalog.Tables catalog)).

Definition loadFiles (projectDir runArtifactsDir : string)
  : run (Catalog.t * option error) :=
  '(manifest, err) ← loadManifest projectDir runArtifactsDir;
  match err with
  | Some e => Done (Catalog.zero, Some e)
  | None =>
      '(catalog, err) ← loadCatalog projectDir runArtifactsDir manifest;
      match err with
      | Some e => Done (Catalog.zero, Some e)
      | None => Done (annotateCatalog manifest catalog, None)
      end
  end.

Definition writeCoverageReport (report : JSONReport.t) (path : string)
  : option error :=
  let '(data, err) := MarshalIndent report in
  match err with
  | Some e => Some (ErrExternal e)
  | None => ErrExternal <$> WriteFile path data
  end.

(** The detailed report printed between the filter and the JSON report
    goes to the console only. *)
Definition doCompute (projectDir runArtifactsDir output : string)
    (covType : CoverageType) (modelPathFilter : list string)
  : run (option error) :=
  '(catalog, err) ← loadFiles projectDir runArtifactsDir;
  match err with
  | Some e => Done (Some e)
  | None =>
      let finish (catalog : Catalog.t) : run (option error) :=
        let jsonReport := computeJSONReport catalog covType in
        Done (writeCoverageReport jsonReport output) in
      if (0 <? Z.of_nat (length modelPathFilter)) then
        let catalog := FilterTables catalog modelPathFilter in
        if (Z.of_nat (size (Catalog.Tables catalog)) =? 0) then
          Done (Some ErrNoTablesAfterFilter)
        else finish catalog
      else finish catalog
  end.

(** ** Vocabulary of the properties *)

(** The field [k] of [node] is absent or is not a string. *)
Definition lacksString (node : gmap string value) (k : string) : Prop :=
  forall s, node !! k <> Some (VStr s).

(** The string held by the field [k] of an optional object, [""] when
    there is none. *)
Definition stringField (o : option (gmap string value)) (k : string)
  : string :=
  match o ≫= (fun o => o !! k) with
  | Some (VStr s) => s
  | _ => ""
  end.

(** The first non-empty string of a list of candidates, [""] when all
    are empty. *)
Fixpoint firstNonEmpty (candidates : list string) : string :=
  match candidates with
  | [] => ""
  | s :: rest => if String.eqb s "" then firstNonEmpty rest else s
  end.

(** [tableID] is in none of the four partitions. *)
Definition noCounterpart (m : Manifest.t) (tableID : string) : Prop :=
  Manifest.Sources m !! tableID = None /\
  Manifest.Models m !! tableID = None /\
  Manifest.Seeds m !! tableID = None /\
  Manifest.Snapshots m !! tableID = None.

(** The [unique_id] of an entry of the node list, when it has one. *)
Definition uniqueIDOf (n : value) : option string :=
  asObject n ≫= (fun node => asString (index node "unique_id")).

(** [s] starts with [p]. *)
Definition startsWith (s p : string) : Prop :=
  exists rest, s = (p +:+ rest)%string.

(** The catalog node [node] declares a column whose lowercased name is
    [colName]. *)
Definition declaresColumn (node : gmap string value) (colName : string)
  : Prop :=
  exists columnsRaw k colNode s,
    asObject (index node "columns") = Some columnsRaw /\
    columnsRaw !! k = Some (VObj colNode) /\
    colNode !! "name" = Some (VStr s) /\
    colName = ToLower s.

(** An object of the columns of [node] has no string [name]. *)
Definition hasNamelessColumn (node : gmap string value) : Prop :=
  exists cols k col,
    asObject (index node "columns") = Some cols /\
    cols !! k = Some (VObj col) /\
    lacksString col "name".

(** The list entry is a JSON object. *)
Definition isObject (v : value) : bool :=
  match v with VObj _ => true | _ => false end.

(** The table identifier an entry of [depends_on.nodes] stands for: the
    string it holds, the empty identifier when it is not a string. *)
Definition entryID (entry : option value) : string :=
  default "" (entry ≫= asString).

(** ** Proof tools *)

Lemma asString_index_None (node : gmap string value) (k : string) :
  lacksString node k <-> asString (index node k) = None.
Proof.
  unfold lacksString, index. split.
  - intros H. destruct (node !! k) as [[]|] eqn:E; simpl; try reflexivity.
    exfalso. exact (H _ eq_refl).
  - intros H s Hs. rewrite Hs in H. discriminate.
Qed.

Lemma asString_index_Some (node : gmap string value) (k s : string) :
  node !! k = Some (VStr s) <-> asString (index node k) = Some s.
Proof.
  unfold index. split.
  - intros ->. reflexivity.
  - destruct (node !! k) as [[]|]; simpl; intros H; try discriminate.
    congruence.
Qed.

(** A [range] that writes [f k v] back under each key [k] it visits. *)
Lemma map_fold_update_lookup {A} (f : string -> A -> A)
    (init m : gmap string A) (k : string) :
  map_fold (fun k v (acc : gmap string A) => <[k := f k v]> acc) init m !! k
  = match m !! k with
    | Some v => Some (f k v)
    | None => init !! k
    end.
Proof.
  revert k.
  apply (map_fold_weak_ind
           (fun (r : gmap string A) (m : gmap string A) =>
              forall k, r !! k = match m !! k with
                                 | Some v => Some (f k v)
                                 | None => init !! k
                                 end)).
  - intros k. rewrite lookup_empty. reflexivity.
  - intros i x m' r Hi IH k.
    destruct (decide (i = k)) as [->|Hne].
    + rewrite !lookup_insert_eq. reflexivity.
    + rewrite !lookup_insert_ne by assumption. apply IH.
Qed.

(** ** Unchecked type assertions *)

Lemma NewColumnFromNode_panics (node : gmap string value) :
  lacksString node "name" -> NewColumnFromNode node = Panic.
Proof.
  intros H. apply asString_index_None in H.
  unfold NewColumnFromNode. rewrite H. reflexivity.
Qed.

Lemma normalizeColumns_panics (cols : gmap string value) :
  (exists k col, cols !! k = Some (VObj col) /\ lacksString col "name") ->
  normalizeColumns cols = Panic.
Proof.
  unfold normalizeColumns.
  apply (map_fold_weak_ind
           (fun (r : run (gmap string value)) (m : gmap string value) =>
              (exists k col, m !! k = Some (VObj col) /\ lacksString col "name")
              -> r = Panic)).
  - intros (k & col & Hk & _). rewrite lookup_empty in Hk. discriminate.
  - intros i x m r Hi IH (k & col & Hk & Hname).
    destruct (decide (i = k)) as [->|Hne].
    + rewrite lookup_insert_eq in Hk. injection Hk as ->.
      apply asString_index_None in Hname.
      destruct r; run_simpl; [rewrite Hname|]; reflexivity.
    + rewrite lookup_insert_ne in Hk by assumption.
      rewrite IH by eauto. reflexivity.
Qed.

Lemma normalizeTable_panics (table cols : gmap string value) :
  asObject (index table "columns") = Some cols ->
  (exists k col, cols !! k = Some (VObj col) /\ lacksString col "name") ->
  normalizeTable table = Panic.
Proof.
  intros Hcols Hbad. unfold normalizeTable.
  rewrite Hcols, (normalizeColumns_panics _ Hbad). reflexivity.
Qed.

Lemma NewTableFromNode_panics (node : gmap string value)
    (manifest : Manifest.t) (uniqueID : string)
    (manifestTable : gmap string value) :
  asString (index node "unique_id") = Some uniqueID ->
  GetTable manifest uniqueID = (manifestTable, None) ->
  lacksString manifestTable "name" ->
  NewTableFromNode node manifest = Panic.
Proof.
  intros Hid Hget Hname. apply asString_index_None in Hname.
  unfold NewTableFromNode. rewrite Hid, Hget.
  destruct (match asObject (index node "columns") with
            | Some columnsRaw => columnsFromRaw columnsRaw
            | None => Done ∅
            end); run_simpl; [rewrite Hname|]; reflexivity.
Qed.

(** C10: when the [name] field of a catalog column node, of a manifest
    column node, or of the manifest table a catalog node resolves to, is
    absent or is not a string, then [NewColumnFromNode], [normalizeTable]
    and [NewTableFromNode] respectively do not return an error value:
    the unchecked type assertion panics. *)
Theorem unchecked_name_assertions_panic :
  (forall node : gmap string value,
      lacksString node "name" -> NewColumnFromNode node = Panic) /\
  (forall (table cols : gmap string value) (k : string)
          (col : gmap string value),
      asObject (index table "columns") = Some cols ->
      cols !! k = Some (VObj col) ->
      lacksString col "name" ->
      normalizeTable table = Panic) /\
  (forall (node : gmap string value) (manifest : Manifest.t)
          (uniqueID : string) (manifestTable : gmap string value),
      asString (index node "unique_id") = Some uniqueID ->
      GetTable manifest uniqueID = (manifestTable, None) ->
      lacksString manifestTable "name" ->
      NewTableFromNode node manifest = Panic).
Proof.
  split; [|split].
  - exact NewColumnFromNode_panics.
  - intros table cols k col Hcols Hk Hname.
    eapply normalizeTable_panics; eauto.
  - exact NewTableFromNode_panics.
Qed.

(** ** Resolution of a table identifier *)

Lemma GetTable_noCounterpart (m : Manifest.t) (tableID : string) :
  noCounterpart m tableID ->
  GetTable m tableID = (∅, Some (ErrTableNotFound tableID)).
Proof.
  intros (Hs & Hm & Hd & Hp). unfold GetTable.
  rewrite Hs, Hm, Hd, Hp. reflexivity.
Qed.

(** The partitions that hold [tableID], in the order [GetTable] probes
    them. *)
Lemma GetTable_duplicate (m : Manifest.t) (tableID : string) :
  (1 < length (omap (fun part : gmap string (gmap string value) =>
                       part !! tableID)
                    [Manifest.Sources m; Manifest.Models m;
                     Manifest.Seeds m; Manifest.Snapshots m]))%nat ->
  GetTable m tableID = (∅, Some (ErrDuplicateID tableID)).
Proof.
  unfold GetTable. simpl.
  destruct (Manifest.Sources m !! tableID),
           (Manifest.Models m !! tableID),
           (Manifest.Seeds m !! tableID),
           (Manifest.Snapshots m !! tableID); simpl; intros H;
    solve [reflexivity | lia].
Qed.

(** ** Building the catalog *)

Lemma NewTableFromNode_malformed (node : gmap string value)
    (m : Manifest.t) :
  (asString (index node "unique_id") = None \/
   exists id, asString (index node "unique_id") = Some id /\
              noCounterpart m id) ->
  exists e, NewTableFromNode node m = Done (Table.zero, Some e).
Proof.
  unfold NewTableFromNode. intros [H | (id & H & Hno)]; rewrite H.
  - eauto.
  - rewrite (GetTable_noCounterpart _ _ Hno). eauto.
Qed.

Lemma catalogLoop_aborts (m : Manifest.t) (node : gmap string value)
    (e0 : error) :
  NewTableFromNode node m = Done (Table.zero, Some e0) ->
  forall (nodes : list value) (tables : gmap string Table.t),
    VObj node ∈ nodes ->
    catalogLoop nodes m tables = Panic \/
    exists e, catalogLoop nodes m tables = Done (Catalog.zero, Some e).
Proof.
  intros Hbad nodes.
  induction nodes as [|n rest IH]; intros tables Hin.
  - apply elem_of_nil in Hin. contradiction.
  - simpl. destruct (asObject n) as [nd|] eqn:En.
    + destruct (NewTableFromNode nd m) as [[t [e|]]|] eqn:Ent; run_simpl.
      * right. eauto.
      * apply elem_of_cons in Hin as [Heq | Hin].
        -- subst n. simpl in En. injection En as <-. congruence.
        -- apply IH. assumption.
      * left. reflexivity.
    + apply elem_of_cons in Hin as [Heq | Hin].
      * subst n. discriminate.
      * apply IH. assumption.
Qed.

Lemma catalogLoop_no_panic (m : Manifest.t) :
  forall (nodes : list value) (tables : gmap string Table.t),
    (forall n, VObj n ∈ nodes -> NewTableFromNode n m <> Panic) ->
    catalogLoop nodes m tables <> Panic.
Proof.
  induction nodes as [|n rest IH]; intros tables Hsafe; simpl.
  - discriminate.
  - destruct n as [| | | | |nd]; simpl;
      try (apply IH; intros n' Hn'; apply Hsafe; apply elem_of_cons; auto).
    destruct (NewTableFromNode nd m) as [[t [e|]]|] eqn:Ent; run_simpl.
    + discriminate.
    + apply IH. intros n' Hn'. apply Hsafe. apply elem_of_cons. auto.
    + exfalso. apply (Hsafe nd); [apply elem_of_cons; auto | assumption].
Qed.

Lemma catalogLoop_after_prefix (m : Manifest.t) (node : gmap string value)
    (e0 : error) (post : list value) :
  NewTableFromNode node m = Done (Table.zero, Some e0) ->
  forall (pre : list value) (tables : gmap string Table.t),
    (forall n, VObj n ∈ pre -> NewTableFromNode n m <> Panic) ->
    exists e,
      catalogLoop (pre ++ VObj node :: post) m tables
      = Done (Catalog.zero, Some e).
Proof.
  intros Hbad pre.
  induction pre as [|n pre IH]; intros tables Hsafe; simpl.
  - rewrite Hbad. run_simpl. eauto.
  - assert (Hpre : forall n', VObj n' ∈ pre -> NewTableFromNode n' m <> Panic).
    { intros n' Hn'. apply Hsafe. apply elem_of_cons. auto. }
    destruct n as [| | | | |nd]; simpl; try (apply IH; exact Hpre).
    destruct (NewTableFromNode nd m) as [[t [e|]]|] eqn:Ent; run_simpl.
    + eauto.
    + apply IH. exact Hpre.
    + exfalso. apply (Hsafe nd); [apply elem_of_cons; auto | exact Ent].
Qed.

Lemma catalogLoop_skips (m : Manifest.t) (nodes : list value) :
  forall tables : gmap string Table.t,
    catalogLoop nodes m tables
    = catalogLoop (List.filter isObject nodes) m tables.
Proof.
  induction nodes as [|n rest IH]; intros tables; simpl; [reflexivity|].
  destruct n as [| | | | |nd]; simpl; try apply IH.
  destruct (NewTableFromNode nd m) as [[t [e|]]|]; run_simpl;
    first [reflexivity | apply IH].
Qed.

(** C5, amended: if an entry of the node list that is a JSON object has
    a missing or non-string [unique_id], or a [unique_id] found in none of
    the four partitions of the manifest, then [CatalogFromNodes] returns
    no catalog: its outcome is a panic or an error with the empty catalog,
    and it is that error whenever no object entry before such an entry
    makes [NewTableFromNode] panic; entries of the list that are not JSON
    objects are skipped, the outcome being that of the list without
    them. *)
Theorem CatalogFromNodes_aborts_on_malformed_node
    (nodes : list value) (m : Manifest.t) :
  (forall node,
      VObj node ∈ nodes ->
      (asString (index node "unique_id") = None \/
       exists id, asString (index node "unique_id") = Some id /\
                  noCounterpart m id) ->
      (CatalogFromNodes nodes m = Panic \/
       exists e, CatalogFromNodes nodes m = Done (Catalog.zero, Some e)) /\
      (forall pre post,
          nodes = pre ++ VObj node :: post ->
          (forall n, VObj n ∈ pre -> NewTableFromNode n m <> Panic) ->
          exists e, CatalogFromNodes nodes m = Done (Catalog.zero, Some e))) /\
  CatalogFromNodes nodes m
  = CatalogFromNodes (List.filter isObject nodes) m.
Proof.
  split.
  - intros node Hin Hbad.
    destruct (NewTableFromNode_malformed node m Hbad) as [e0 He0].
    unfold CatalogFromNodes. split.
    + exact (catalogLoop_aborts m node e0 He0 nodes ∅ Hin).
    + intros pre post -> Hsafe.
      exact (catalogLoop_after_prefix m node e0 post He0 pre ∅ Hsafe).
  - apply catalogLoop_skips.
Qed.

(** ** The path filter *)

Lemma prefix_startsWith (p s : string) :
  String.prefix p s = true <-> startsWith s p.
Proof.
  unfold startsWith. revert s.
  induction p as [|a p IH]; intros s.
  - split; [intros _; exists s; reflexivity | intros _; destruct s; reflexivity].
  - destruct s as [|b s]; simpl.
    + split; [discriminate | intros [rest H]; discriminate].
    + destruct (ascii_dec a b) as [->|Hne].
      * rewrite IH. split; intros [rest H]; exists rest.
        -- rewrite H. reflexivity.
        -- injection H as H. exact H.
      * split; [discriminate | intros [rest H]; injection H as H1 H2; congruence].
Qed.

Lemma matchesFilter_spec (originalPath : string) (fs : list string) :
  matchesFilter originalPath fs = true <->
  exists f, f ∈ fs /\ startsWith originalPath (ToSlash f).
Proof.
  induction fs as [|f fs IH]; simpl.
  - split; [discriminate | intros (f & Hf & _); apply elem_of_nil in Hf; contradiction].
  - destruct (String.prefix (ToSlash f) originalPath) eqn:E.
    + split; [intros _ | reflexivity].
      exists f. split; [apply elem_of_cons; auto | apply prefix_startsWith; exact E].
    + rewrite IH. split.
      * intros (g & Hg & Hs). exists g. split; [apply elem_of_cons; auto | exact Hs].
      * intros (g & Hg & Hs). apply elem_of_cons in Hg as [-> | Hg].
        -- apply prefix_startsWith in Hs. congruence.
        -- eauto.
Qed.

Lemma FilterTables_lookup (c : Catalog.t) (fs : list string)
    (id : string) (t : Table.t) :
  Catalog.Tables (FilterTables c fs) !! id = Some t <->
  Catalog.Tables c !! id = Some t /\
  matchesFilter (ToSlash (Table.OriginalFilePath t)) fs = true.
Proof.
  unfold FilterTables. simpl. revert id t.
  apply (map_fold_weak_ind
           (fun (r m : gmap string Table.t) =>
              forall id t,
                r !! id = Some t <->
                m !! id = Some t /\
                matchesFilter (ToSlash (Table.OriginalFilePath t)) fs = true)).
  - intros id t. rewrite lookup_empty. split; [discriminate | intros [H _]; discriminate].
  - intros i x m r Hi IH id t.
    destruct (matchesFilter (ToSlash (Table.OriginalFilePath x)) fs) eqn:E;
      destruct (decide (i = id)) as [->|Hne].
    + rewrite !lookup_insert_eq. split.
      * intros H. injection H as <-. auto.
      * intros [H _]. exact H.
    + rewrite !lookup_insert_ne by assumption. apply IH.
    + rewrite lookup_insert_eq, IH, Hi. split.
      * intros [H _]. discriminate.
      * intros [H Ht]. injection H as <-. congruence.
    + rewrite lookup_insert_ne by assumption. apply IH.
Qed.

(** C6: [FilterTables] keeps a table exactly when its slash-normalized
    origin path starts with one of the slash-normalized prefixes; the
    kept entries are entries of the input, unchanged; the result does
    not depend on the order of the prefixes. *)
Theorem FilterTables_retains_iff_prefix (c : Catalog.t) (fs : list string) :
  (forall id t,
      Catalog.Tables (FilterTables c fs) !! id = Some t <->
      Catalog.Tables c !! id = Some t /\
      exists f, f ∈ fs /\
                startsWith (ToSlash (Table.OriginalFilePath t)) (ToSlash f)) /\
  Catalog.Tables (FilterTables c fs) ⊆ Catalog.Tables c /\
  (forall fs', fs ≡ₚ fs' -> FilterTables c fs' = FilterTables c fs).
Proof.
  assert (Hspec : forall gs id t,
      Catalog.Tables (FilterTables c gs) !! id = Some t <->
      Catalog.Tables c !! id = Some t /\
      exists f, f ∈ gs /\
                startsWith (ToSlash (Table.OriginalFilePath t)) (ToSlash f)).
  { intros gs id t. rewrite FilterTables_lookup, matchesFilter_spec. reflexivity. }
  split; [apply Hspec | split].
  - apply map_subseteq_spec. intros id t H. apply Hspec in H. apply H.
  - intros fs' Hperm.
    assert (Heq : Catalog.Tables (FilterTables c fs')
                  = Catalog.Tables (FilterTables c fs)).
    { apply map_eq. intros id. apply option_eq. intros t.
      rewrite !Hspec. split; intros (Ht & f & Hf & Hs); split; trivial;
        exists f; split; trivial.
      - rewrite Hperm. exact Hf.
      - rewrite <- Hperm. exact Hf. }
    unfold FilterTables in Heq |- *. simpl in Heq. rewrite Heq. reflexivity.
Qed.

(** ** The computation and the empty result of a filter *)

Lemma writeCoverageReport_error (report : JSONReport.t) (path : string) :
  writeCoverageReport report path <> Some ErrNoTablesAfterFilter.
Proof.
  unfold writeCoverageReport.
  destruct (MarshalIndent report) as [data [e|]]; [discriminate|].
  destruct (WriteFile path data); discriminate.
Qed.

(** C7: once the files are loaded, a requested (non-empty) path filter
    that leaves no table makes [doCompute] fail with the error of the
    empty filter result; without a filter the catalog, empty or not, goes
    on to the report, the outcome is that of writing it and is never that
    error, and it is a success when the report is written. *)
Theorem doCompute_empty_filter_result
    (projectDir runArtifactsDir output : string) (covType : CoverageType)
    (modelPathFilter : list string) (catalog : Catalog.t) :
  loadFiles projectDir runArtifactsDir = Done (catalog, None) ->
  (modelPathFilter <> [] ->
   Catalog.Tables (FilterTables catalog modelPathFilter) = ∅ ->
   doCompute projectDir runArtifactsDir output covType modelPathFilter
   = Done (Some ErrNoTablesAfterFilter)) /\
  (modelPathFilter = [] ->
   doCompute projectDir runArtifactsDir output covType modelPathFilter
   = Done (writeCoverageReport (computeJSONReport catalog covType) output) /\
   doCompute projectDir runArtifactsDir output covType modelPathFilter
   <> Done (Some ErrNoTablesAfterFilter) /\
   (writeCoverageReport (computeJSONReport catalog covType) output = None ->
    doCompute projectDir runArtifactsDir output covType modelPathFilter
    = Done None)).
Proof.
  intros Hload. unfold doCompute. rewrite Hload. run_simpl. split.
  - intros Hne Hempty. destruct modelPathFilter as [|f fs]; [congruence|].
    change (0 <? Z.of_nat (length (f :: fs))) with true. cbv iota.
    rewrite Hempty. reflexivity.
  - intros ->. simpl. split; [reflexivity | split].
    + intros H. injection H as H. exact (writeCoverageReport_error _ _ H).
    + intros ->. reflexivity.
Qed.

(** ** The annotation pass and the per-column report *)

Lemma annotateTable_lookup (m : Manifest.t) (tableID : string)
    (t : Table.t) (colName : string) :
  Table.Columns (annotateTable m tableID t) !! colName
  = annotateColumn m tableID colName <$> Table.Columns t !! colName.
Proof.
  unfold annotateTable. simpl.
  rewrite (map_fold_update_lookup (annotateColumn m tableID)).
  destruct (Table.Columns t !! colName); reflexivity.
Qed.

Lemma annotateCatalog_lookup (m : Manifest.t) (c : Catalog.t)
    (tableID : string) :
  Catalog.Tables (annotateCatalog m c) !! tableID
  = annotateTable m tableID <$> Catalog.Tables c !! tableID.
Proof.
  unfold annotateCatalog. simpl.
  rewrite (map_fold_update_lookup (annotateTable m)).
  destruct (Catalog.Tables c !! tableID); reflexivity.
Qed.

Lemma loadFiles_inv (projectDir runArtifactsDir : string)
    (catalog : Catalog.t) :
  loadFiles projectDir runArtifactsDir = Done (catalog, None) ->
  exists manifest c0,
    loadManifest projectDir runArtifactsDir = Done (manifest, None) /\
    loadCatalog projectDir runArtifactsDir manifest = Done (c0, None) /\
    catalog = annotateCatalog manifest c0.
Proof.
  unfold loadFiles.
  destruct (loadManifest projectDir runArtifactsDir) as [[m [e|]]|];
    run_simpl; try discriminate.
  destruct (loadCatalog projectDir runArtifactsDir m) as [[c0 [e|]]|] eqn:Ec;
    run_simpl; try discriminate.
  intros H. injection H as <-. exists m, c0. auto.
Qed.








(** ** The columns of a reconciled table *)

Lemma columnsFromRaw_dom (columnsRaw : gmap string value)
    (cols : gmap string Column.t) :
  columnsFromRaw columnsRaw = Done cols ->
  forall colName,
    colName ∈ dom cols <->
    exists k colNode s,
      columnsRaw !! k = Some (VObj colNode) /\
      colNode !! "name" = Some (VStr s) /\
      colName = ToLower s.
Proof.
  unfold columnsFromRaw. revert cols.
  apply (map_fold_weak_ind
           (fun (r : run (gmap string Column.t)) (m : gmap string value) =>
              forall cols, r = Done cols ->
                forall colName,
                  colName ∈ dom cols <->
                  exists k colNode s,
                    m !! k = Some (VObj colNode) /\
                    colNode !! "name" = Some (VStr s) /\
                    colName = ToLower s)).
  - intros cols H. injection H as <-. intros colName.
    rewrite dom_empty_L. split.
    + intros H. apply not_elem_of_empty in H. contradiction.
    + intros (k & colNode & s & H & _). rewrite lookup_empty in H. discriminate.
  - intros i x m r Hi IH cols Hr colName.
    destruct r as [cols0|]; run_simpl; [|discriminate].
    specialize (IH cols0 eq_refl).
    destruct (asObject x) as [colNode|] eqn:Ex.
    2:{ injection Hr as <-. rewrite IH. split; intros (k & cn & s & Hk & Hs).
        - exists k, cn, s. rewrite lookup_insert_ne; [auto | congruence].
        - destruct (decide (i = k)) as [->|Hne].
          + rewrite lookup_insert_eq in Hk. injection Hk as ->. discriminate.
          + rewrite lookup_insert_ne in Hk by assumption. eauto. }
    destruct x; try discriminate. injection Ex as ->.
    unfold NewColumnFromNode in Hr.
    destruct (asString (index colNode "name")) as [s0|] eqn:Es0;
      simpl in Hr; [|discriminate].
    injection Hr as <-. apply asString_index_Some in Es0.
    rewrite dom_insert_L, elem_of_union, elem_of_singleton, IH.
    split.
    + intros [-> | (k & cn & s & Hk & Hs)].
      * exists i, colNode, s0. rewrite lookup_insert_eq. auto.
      * exists k, cn, s. rewrite lookup_insert_ne; [auto | congruence].
    + intros (k & cn & s & Hk & Hs & ->).
      destruct (decide (i = k)) as [->|Hne].
      * rewrite lookup_insert_eq in Hk. injection Hk as <-.
        left. congruence.
      * rewrite lookup_insert_ne in Hk by assumption. right.
        exists k, cn, s. auto.
Qed.

Lemma NewTableFromNode_ok (node : gmap string value) (m : Manifest.t)
    (t : Table.t) :
  NewTableFromNode node m = Done (t, None) ->
  asString (index node "unique_id") = Some (Table.UniqueID t) /\
  forall colName, colName ∈ dom (Table.Columns t) <-> declaresColumn node colName.
Proof.
  unfold NewTableFromNode, declaresColumn.
  destruct (asString (index node "unique_id")) as [uid|]; [|discriminate].
  destruct (GetTable m uid) as [mt [e|]]; [discriminate|].
  destruct (asObject (index node "columns")) as [raw|] eqn:Eraw.
  - destruct (columnsFromRaw raw) as [cols|] eqn:Ecols; run_simpl; [|discriminate].
    destruct (asString (index mt "name")); [|discriminate].
    intros H. injection H as <-. simpl. split; [reflexivity|].
    intros colName. rewrite (columnsFromRaw_dom raw cols Ecols). split.
    + intros (k & cn & s' & H). exists raw, k, cn, s'. auto.
    + intros (raw' & k & cn & s' & Hraw & H). injection Hraw as <-. eauto.
  - run_simpl. destruct (asString (index mt "name")); [|discriminate].
    intros H. injection H as <-. simpl. split; [reflexivity|].
    intros colName. rewrite dom_empty_L. split.
    + intros H. apply not_elem_of_empty in H. contradiction.
    + intros (raw' & _ & _ & _ & Hraw & _). discriminate.
Qed.

Lemma catalogLoop_lookup (m : Manifest.t) (nodes : list value) :
  forall (tables : gmap string Table.t) (c : Catalog.t)
         (tableID : string) (t : Table.t),
    catalogLoop nodes m tables = Done (c, None) ->
    Catalog.Tables c !! tableID = Some t ->
    tables !! tableID = Some t \/
    exists node, VObj node ∈ nodes /\
                 NewTableFromNode node m = Done (t, None) /\
                 Table.UniqueID t = tableID.
Proof.
  induction nodes as [|n rest IH]; intros tables c tableID t Hrun Ht; simpl in Hrun.
  - injection Hrun as <-. left. exact Ht.
  - destruct n as [| | | | |nd]; simpl in Hrun;
      try (destruct (IH _ _ _ _ Hrun Ht) as [H | (node & Hin & H)];
           [left; exact H
           | right; exists node; split; [apply elem_of_cons; auto | exact H]]).
    destruct (NewTableFromNode nd m) as [[tb [e|]]|] eqn:Ent; run_simpl;
      try discriminate.
    destruct (IH _ _ _ _ Hrun Ht) as [H | (node & Hin & H)].
    + destruct (decide (Table.UniqueID tb = tableID)) as [Heq|Hne].
      * rewrite <- Heq, lookup_insert_eq in H. injection H as <-.
        right. exists nd. split; [apply elem_of_cons; auto | auto].
      * rewrite lookup_insert_ne in H by assumption. left. exact H.
    + right. exists node. split; [apply elem_of_cons; auto | exact H].
Qed.

Lemma loadCatalog_inv (projectDir runArtifactsDir : string)
    (m : Manifest.t) (c0 : Catalog.t) :
  loadCatalog projectDir runArtifactsDir m = Done (c0, None) ->
  exists data catalogJSON,
    ReadFile (catalogPathOf projectDir runArtifactsDir) = (data, None) /\
    Unmarshal data = (catalogJSON, None) /\
    CatalogFromNodes (catalogNodesOf catalogJSON) m = Done (c0, None).
Proof.
  unfold loadCatalog.
  destruct (IsNotExist (catalogPathOf projectDir runArtifactsDir));
    [discriminate|].
  destruct (ReadFile (catalogPathOf projectDir runArtifactsDir))
    as [data [e|]]; [discriminate|].
  destruct (Unmarshal data) as [catalogJSON [e|]] eqn:Eu; [discriminate|].
  intros H. exists data, catalogJSON. auto.
Qed.

Lemma annotateTable_dom (m : Manifest.t) (tableID : string) (t : Table.t) :
  dom (Table.Columns (annotateTable m tableID t)) = dom (Table.Columns t).
Proof.
  apply set_eq. intros colName.
  rewrite !elem_of_dom, annotateTable_lookup.
  destruct (Table.Columns t !! colName); simpl; split; intros [x H];
    first [discriminate | eauto].
Qed.

(** C9: in the catalog that [loadFiles] returns, every table comes from
    a node of the catalog document with the table's [unique_id], and the
    keys of its columns mapping are exactly the lowercased names of the
    columns that node declares; the annotation pass keeps the set of
    tables and, in each table, the set of columns as the catalog build
    left them. *)
Theorem reconciled_columns_are_catalog_columns
    (projectDir runArtifactsDir : string) (manifest : Manifest.t)
    (c0 : Catalog.t) :
  loadManifest projectDir runArtifactsDir = Done (manifest, None) ->
  loadCatalog projectDir runArtifactsDir manifest = Done (c0, None) ->
  loadFiles projectDir runArtifactsDir
  = Done (annotateCatalog manifest c0, None) /\
  dom (Catalog.Tables (annotateCatalog manifest c0)) = dom (Catalog.Tables c0) /\
  forall tableID t,
    Catalog.Tables (annotateCatalog manifest c0) !! tableID = Some t ->
    exists t0 data catalogJSON node,
      Catalog.Tables c0 !! tableID = Some t0 /\
      dom (Table.Columns t) = dom (Table.Columns t0) /\
      ReadFile (catalogPathOf projectDir runArtifactsDir) = (data, None) /\
      Unmarshal data = (catalogJSON, None) /\
      VObj node ∈ catalogNodesOf catalogJSON /\
      asString (index node "unique_id") = Some tableID /\
      forall colName,
        colName ∈ dom (Table.Columns t) <-> declaresColumn node colName.
Proof.
  intros Hm Hc. split; [|split].
  - unfold loadFiles. rewrite Hm. run_simpl. rewrite Hc. reflexivity.
  - apply set_eq. intros tableID.
    rewrite !elem_of_dom, annotateCatalog_lookup.
    destruct (Catalog.Tables c0 !! tableID); simpl; split; intros [x H];
      first [discriminate | eauto].
  - intros tableID t Ht. rewrite annotateCatalog_lookup in Ht.
    destruct (Catalog.Tables c0 !! tableID) as [t0|] eqn:Et0; [|discriminate].
    injection Ht as <-.
    destruct (loadCatalog_inv _ _ _ _ Hc) as (data & catalogJSON & Hr & Hu & Hb).
    destruct (catalogLoop_lookup _ _ _ _ _ _ Hb Et0) as [H | (node & Hin & Hn & Hid)].
    { rewrite lookup_empty in H. discriminate. }
    destruct (NewTableFromNode_ok _ _ _ Hn) as [Huid Hdom].
    exists t0, data, catalogJSON, node.
    rewrite annotateTable_dom, <- Hid. auto 10.
Qed.

(** ** Attribution of test declarations *)

Lemma testKey_qualifying
    (node testMeta dependsRaw : gmap string value) (nodesDep : list value) :
  node !! "test_metadata" = Some (VObj testMeta) ->
  asObject (index node "depends_on") = Some dependsRaw ->
  asArray (index dependsRaw "nodes") = Some nodesDep ->
  nodesDep <> [] ->
  testKey node
  = if String.eqb (resolveColumnName node testMeta) "" then None
    else Some (resolveTableID (default "" (asString (index testMeta "name")))
                 nodesDep,
               ToLower (resolveColumnName node testMeta)).
Proof.
  intros Hmeta Hdep Hnodes Hne. unfold testKey.
  rewrite Hmeta, Hdep, Hnodes. unfold index at 1. rewrite Hmeta. simpl.
  destruct nodesDep as [|n rest]; [congruence|]. reflexivity.
Qed.

Lemma manifestStep_test (m : Manifest.t) (node : gmap string value) :
  asString (index node "resource_type") = Some "test" ->
  manifestStep (VObj node) m
  = Done (Manifest.mk (Manifest.Sources m) (Manifest.Models m)
            (Manifest.Seeds m) (Manifest.Snapshots m)
            (addTest (Manifest.Tests m) node)).
Proof.
  intros H. unfold manifestStep. simpl. rewrite H. reflexivity.
Qed.

Lemma testsForColumn_appendTest
    (tests : gmap string (gmap string (list value)))
    (srcs mods seeds snaps : gmap string (gmap string value))
    (tableID columnName : string) (node : gmap string value)
    (tableID' columnName' : string) :
  testsForColumn
    (Manifest.mk srcs mods seeds snaps
       (appendTest tests tableID columnName node)) tableID' columnName'
  = if decide ((tableID', columnName') = (tableID, columnName))
    then testsForColumn (Manifest.mk srcs mods seeds snaps tests)
           tableID columnName ++ [VObj node]
    else testsForColumn (Manifest.mk srcs mods seeds snaps tests)
           tableID' columnName'.
Proof.
  unfold testsForColumn, appendTest. simpl.
  destruct (decide (tableID = tableID')) as [<-|Ht].
  - rewrite lookup_insert_eq.
    destruct (decide (columnName = columnName')) as [<-|Hc].
    + rewrite lookup_insert_eq, decide_True by reflexivity. simpl.
      destruct (tests !! tableID); reflexivity.
    + rewrite lookup_insert_ne, decide_False by congruence.
      destruct (tests !! tableID); simpl; [reflexivity|].
      rewrite lookup_empty. reflexivity.
  - rewrite lookup_insert_ne, decide_False by congruence. reflexivity.
Qed.

(** One step of the loop on a test node that has a [test_metadata]
    block and a non-empty [depends_on.nodes] list whose selected entry is
    a string: the table identifier resolved is that entry, and when the
    column resolves too the declaration is appended under that table and
    no other key of the test index changes. *)
Theorem test_attributed_to_last_or_first
    (m : Manifest.t) (node testMeta dependsRaw : gmap string value)
    (nodesDep : list value) (tableID : string) :
  asString (index node "resource_type") = Some "test" ->
  node !! "test_metadata" = Some (VObj testMeta) ->
  asObject (index node "depends_on") = Some dependsRaw ->
  asArray (index dependsRaw "nodes") = Some nodesDep ->
  nodesDep <> [] ->
  (if String.eqb (default "" (asString (index testMeta "name")))
        "relationships"
   then last nodesDep else head nodesDep) = Some (VStr tableID) ->
  resolveTableID (default "" (asString (index testMeta "name"))) nodesDep
  = tableID /\
  (resolveColumnName node testMeta <> "" ->
   let columnName := ToLower (resolveColumnName node testMeta) in
   testKey node = Some (tableID, columnName) /\
   exists m',
     manifestStep (VObj node) m = Done m' /\
     testsForColumn m' tableID columnName
     = testsForColumn m tableID columnName ++ [VObj node] /\
     forall tableID' columnName',
       (tableID', columnName') <> (tableID, columnName) ->
       testsForColumn m' tableID' columnName'
       = testsForColumn m tableID' columnName').
Proof.
  intros Hrt Hmeta Hdep Hnodes Hne Htarget.
  assert (Htable : resolveTableID
                     (default "" (asString (index testMeta "name"))) nodesDep
                   = tableID).
  { unfold resolveTableID.
    destruct (String.eqb (default "" (asString (index testMeta "name")))
                "relationships"); rewrite Htarget; reflexivity. }
  split; [exact Htable|].
  intros Hcol columnName.
  assert (Hkey : testKey node = Some (tableID, columnName)).
  { rewrite (testKey_qualifying _ _ _ _ Hmeta Hdep Hnodes Hne).
    apply String.eqb_neq in Hcol. rewrite Hcol, Htable. reflexivity. }
  split; [exact Hkey|].
  eexists. split; [apply manifestStep_test; exact Hrt|].
  unfold addTest. rewrite Hkey. destruct m as [srcs mods seeds snaps tests].
  simpl. split.
  - rewrite testsForColumn_appendTest, decide_True by reflexivity. reflexivity.
  - intros tableID' columnName' Hother.
    rewrite testsForColumn_appendTest, decide_False by assumption. reflexivity.
Qed.

Lemma resolveColumnName_firstNonEmpty (node testMeta : gmap string value) :
  resolveColumnName node testMeta
  = firstNonEmpty
      [stringField (Some node) "column_name";
       stringField (asObject (index testMeta "kwargs")) "column_name";
       stringField (asObject (index testMeta "kwargs")) "arg"].
Proof.
  unfold resolveColumnName, stringField, firstNonEmpty. simpl.
  destruct (asObject (index testMeta "kwargs")) as [kwargs|]; simpl;
    repeat case_match; simplify_eq/=; try reflexivity; try congruence;
    repeat match goal with
           | H : String.eqb _ _ = true |- _ => apply String.eqb_eq in H
           end;
    congruence.
Qed.

(** One step of the loop on a test node that has a [test_metadata]
    block and a non-empty [depends_on.nodes] list: the column of its key
    is the first non-empty string among the three candidates, lowercased,
    and when all three are empty or absent the step leaves the manifest
    index as it was. *)
Theorem test_column_resolution
    (m : Manifest.t) (node testMeta dependsRaw : gmap string value)
    (nodesDep : list value) :
  asString (index node "resource_type") = Some "test" ->
  node !! "test_metadata" = Some (VObj testMeta) ->
  asObject (index node "depends_on") = Some dependsRaw ->
  asArray (index dependsRaw "nodes") = Some nodesDep ->
  nodesDep <> [] ->
  let kwargs := asObject (index testMeta "kwargs") in
  let resolved :=
    firstNonEmpty [stringField (Some node) "column_name";
                   stringField kwargs "column_name";
                   stringField kwargs "arg"] in
  resolveColumnName node testMeta = resolved /\
  (resolved <> "" ->
   exists tableID, testKey node = Some (tableID, ToLower resolved)) /\
  (resolved = "" ->
   testKey node = None /\ manifestStep (VObj node) m = Done m).
Proof.
  intros Hrt Hmeta Hdep Hnodes Hne kwargs resolved.
  pose proof (resolveColumnName_firstNonEmpty node testMeta) as Hres.
  fold kwargs in Hres. fold resolved in Hres.
  pose proof (testKey_qualifying _ _ _ _ Hmeta Hdep Hnodes Hne) as Hkey.
  rewrite Hres in Hkey. split; [exact Hres | split].
  - intros Hn. apply String.eqb_neq in Hn. rewrite Hn in Hkey. eauto.
  - intros He. rewrite He in Hkey. simpl in Hkey. split; [exact Hkey|].
    rewrite (manifestStep_test _ _ Hrt). unfold addTest. rewrite Hkey.
    destruct m. reflexivity.
Qed.

(** ** What becomes of a failed resolution *)

Lemma NewTableFromNode_relabels_error (node : gmap string value)
    (m : Manifest.t) (uniqueID : string) (manifestTable : gmap string value)
    (e : error) :
  asString (index node "unique_id") = Some uniqueID ->
  GetTable m uniqueID = (manifestTable, Some e) ->
  NewTableFromNode node m = Done (Table.zero, Some (ErrNotInManifest uniqueID)).
Proof.
  intros Hid Hget. unfold NewTableFromNode. rewrite Hid, Hget. reflexivity.
Qed.

(** ** Sums and bounds of the reports *)

Lemma sumZ_snoc (l : list Z) (x : Z) : sumZ (l ++ [x]) = sumZ l + x.
Proof.
  unfold sumZ. induction l as [|y l IH]; simpl; [lia|]. rewrite IH. lia.
Qed.

Lemma sumZ_fmap_snoc {A} (f : A -> Z) (l : list A) (x : A) :
  sumZ (f <$> (l ++ [x])) = sumZ (f <$> l) + f x.
Proof. rewrite fmap_app. apply sumZ_snoc. Qed.

Lemma columnReport_covered_bit (covType : CoverageType) (col : Column.t) :
  ColumnReport.Covered (columnReport covType col) = 0 \/
  ColumnReport.Covered (columnReport covType col) = 1.
Proof.
  unfold columnReport. simpl.
  destruct (String.eqb covType CoverageTypeDoc);
    [destruct (Column.Doc col); auto|].
  destruct (String.eqb covType CoverageTypeTest);
    [destruct (Column.Test col); auto | auto].
Qed.

Lemma columnReports_sums (covType : CoverageType)
    (columns : gmap string Column.t) :
  let '(cols, tableCovered, tableTotal) := columnReports covType columns in
  cols ≡ₚ columnReport covType <$> (map_to_list columns).*2 /\
  tableCovered = sumZ (ColumnReport.Covered <$> cols) /\
  tableTotal = Z.of_nat (length cols).
Proof.
  unfold columnReports. rewrite map_fold_foldr.
  induction (map_to_list columns) as [|[k col] l IH]; simpl.
  - repeat split; reflexivity.
  - destruct (foldr _ _ l) as [[cols cov] tot]. destruct IH as (Hp & Hc & Ht).
    split; [|split].
    + rewrite <- Hp. symmetry. apply Permutation_cons_append.
    + rewrite sumZ_fmap_snoc, Hc. reflexivity.
    + rewrite length_app, Ht. simpl. lia.
Qed.

Lemma tableReports_sums (covType : CoverageType)
    (tables : gmap string Table.t) :
  let '(reports, globalCovered, globalTotal) := tableReports covType tables in
  reports ≡ₚ tableReport covType <$> (map_to_list tables).*2 /\
  globalCovered = sumZ (TableReport.Covered <$> reports) /\
  globalTotal = sumZ (TableReport.Total <$> reports).
Proof.
  unfold tableReports. rewrite map_fold_foldr.
  induction (map_to_list tables) as [|[k t] l IH]; simpl.
  - repeat split; reflexivity.
  - destruct (foldr _ _ l) as [[reports cov] tot]. destruct IH as (Hp & Hc & Ht).
    split; [|split].
    + rewrite <- Hp. symmetry. apply Permutation_cons_append.
    + rewrite sumZ_fmap_snoc, Hc. reflexivity.
    + rewrite sumZ_fmap_snoc, Ht. reflexivity.
Qed.

Lemma sumZ_bits (l : list Z) :
  (forall x, x ∈ l -> x = 0 \/ x = 1) ->
  0 <= sumZ l <= Z.of_nat (length l).
Proof.
  unfold sumZ. induction l as [|y l IH]; intros H; simpl; [lia|].
  assert (Hy : y = 0 \/ y = 1) by (apply H; apply elem_of_cons; auto).
  assert (Hl : 0 <= foldr Z.add 0 l <= Z.of_nat (length l)).
  { apply IH. intros x Hx. apply H. apply elem_of_cons. auto. }
  lia.
Qed.

(** Every table report counts its own column reports: the total is
    their number, which is the number of columns of the table, the covered
    count is the sum of their covered bits, and [0 <= covered <= total]. *)
Theorem tableReport_counts_columns (covType : CoverageType) (t : Table.t) :
  let r := tableReport covType t in
  TableReport.Name r = Table.Name t /\
  TableReport.Columns r
    ≡ₚ columnReport covType <$> (map_to_list (Table.Columns t)).*2 /\
  TableReport.Total r = Z.of_nat (length (TableReport.Columns r)) /\
  TableReport.Total r = Z.of_nat (size (Table.Columns t)) /\
  TableReport.Covered r
  = sumZ (ColumnReport.Covered <$> TableReport.Columns r) /\
  0 <= TableReport.Covered r <= TableReport.Total r.
Proof.
  unfold tableReport.
  pose proof (columnReports_sums covType (Table.Columns t)) as Hs.
  destruct (columnReports covType (Table.Columns t)) as [[cols cov] tot].
  destruct Hs as (Hp & Hc & Ht). simpl.
  split; [reflexivity|]. split; [exact Hp|]. split; [exact Ht|].
  split; [|split; [exact Hc|]].
  - rewrite Ht, Hp, !length_fmap, length_map_to_list. reflexivity.
  - rewrite Hc, Ht. rewrite <- (length_fmap ColumnReport.Covered cols).
    apply sumZ_bits. intros x Hx.
    apply list_elem_of_fmap in Hx as (r & -> & Hr).
    rewrite Hp in Hr. apply list_elem_of_fmap in Hr as (col & -> & _).
    apply columnReport_covered_bit.
Qed.


Lemma sumZ_cons (x : Z) (l : list Z) : sumZ (x :: l) = x + sumZ l.
Proof. reflexivity. Qed.

Lemma sumZ_pointwise {A} (cov tot : A -> Z) (l : list A) :
  (forall x, x ∈ l -> 0 <= cov x <= tot x) ->
  0 <= sumZ (cov <$> l) <= sumZ (tot <$> l).
Proof.
  induction l as [|y l IH]; intros H.
  - unfold sumZ. simpl. lia.
  - rewrite !fmap_cons, !sumZ_cons.
    assert (Hy : 0 <= cov y <= tot y) by (apply H; apply elem_of_cons; auto).
    assert (Hl : 0 <= sumZ (cov <$> l) <= sumZ (tot <$> l)).
    { apply IH. intros x Hx. apply H. apply elem_of_cons. auto. }
    lia.
Qed.

(** The report of [computeJSONReport] holds one table report per table
    of the catalog; its covered and total counts are the exact sums of the
    table reports' counts, with [0 <= covered <= total]; and its coverage
    is [0] when the total is [0]. *)
Theorem computeJSONReport_sums (c : Catalog.t) (covType : CoverageType) :
  let r := computeJSONReport c covType in
  JSONReport.CovType r = covType /\
  JSONReport.Tables r
    ≡ₚ tableReport covType <$> (map_to_list (Catalog.Tables c)).*2 /\
  length (JSONReport.Tables r) = size (Catalog.Tables c) /\
  JSONReport.Covered r = sumZ (TableReport.Covered <$> JSONReport.Tables r) /\
  JSONReport.Total r = sumZ (TableReport.Total <$> JSONReport.Tables r) /\
  0 <= JSONReport.Covered r <= JSONReport.Total r /\
  (JSONReport.Total r = 0 -> JSONReport.Coverage r = 0%float).
Proof.
  unfold computeJSONReport.
  pose proof (tableReports_sums covType (Catalog.Tables c)) as Hs.
  destruct (tableReports covType (Catalog.Tables c)) as [[reports cov] tot].
  destruct Hs as (Hp & Hc & Ht). simpl.
  split; [reflexivity|]. split; [exact Hp|].
  split; [rewrite Hp, !length_fmap, length_map_to_list; reflexivity|].
  split; [exact Hc|]. split; [exact Ht|]. split.
  - rewrite Hc, Ht. apply sumZ_pointwise. intros r Hr.
    rewrite Hp in Hr. apply list_elem_of_fmap in Hr as (t & -> & _).
    apply tableReport_counts_columns.
  - intros ->. reflexivity.
Qed.

Lemma sumZ_zero (l : list Z) : (forall x, x ∈ l -> x = 0) -> sumZ l = 0.
Proof.
  unfold sumZ. induction l as [|y l IH]; intros H; simpl; [reflexivity|].
  rewrite (H y) by (apply elem_of_cons; auto).
  rewrite IH; [reflexivity|]. intros x Hx. apply H. apply elem_of_cons. auto.
Qed.

(** A coverage kind other than [doc] and [test] is not refused: every
    column, every table and the whole report count [covered = 0]. *)
Theorem unknown_kind_covers_nothing (c : Catalog.t) (covType : CoverageType) :
  covType <> CoverageTypeDoc ->
  covType <> CoverageTypeTest ->
  let r := computeJSONReport c covType in
  JSONReport.Covered r = 0 /\
  forall t, t ∈ JSONReport.Tables r ->
    TableReport.Covered t = 0 /\
    forall col, col ∈ TableReport.Columns t -> ColumnReport.Covered col = 0.
Proof.
  intros Hd Ht r.
  assert (Hcol : forall col, ColumnReport.Covered (columnReport covType col) = 0).
  { intros col. unfold columnReport. simpl.
    apply String.eqb_neq in Hd, Ht. rewrite Hd, Ht. reflexivity. }
  assert (Htab : forall t, t ∈ JSONReport.Tables r ->
            TableReport.Covered t = 0 /\
            forall col, col ∈ TableReport.Columns t ->
                        ColumnReport.Covered col = 0).
  { intros t Hin.
    destruct (computeJSONReport_sums c covType) as (_ & Hp & _).
    fold r in Hp. rewrite Hp in Hin.
    apply list_elem_of_fmap in Hin as (tb & -> & _).
    destruct (tableReport_counts_columns covType tb) as (_ & Hcols & _ & _ & Hsum & _).
    assert (Hall : forall col, col ∈ TableReport.Columns (tableReport covType tb) ->
                               ColumnReport.Covered col = 0).
    { intros col Hc. rewrite Hcols in Hc.
      apply list_elem_of_fmap in Hc as (cl & -> & _). apply Hcol. }
    split; [|exact Hall].
    rewrite Hsum. apply sumZ_zero. intros x Hx.
    apply list_elem_of_fmap in Hx as (col & -> & Hc). apply Hall. exact Hc. }
  split; [|exact Htab].
  destruct (computeJSONReport_sums c covType) as (_ & _ & _ & Hsum & _).
  fold r in Hsum. rewrite Hsum. apply sumZ_zero. intros x Hx.
  apply list_elem_of_fmap in Hx as (t & -> & Hin). apply Htab. exact Hin.
Qed.

Lemma columnCounts_columnReports (covType : CoverageType)
    (columns : gmap string Column.t) :
  columnCounts covType columns
  = ((columnReports covType columns).1.2, (columnReports covType columns).2).
Proof.
  unfold columnCounts, columnReports. rewrite !map_fold_foldr.
  induction (map_to_list columns) as [|[k col] l IH]; simpl; [reflexivity|].
  rewrite IH. destruct (foldr _ ([], 0, 0) l) as [[cols cov] tot]. simpl.
  unfold columnReport. simpl.
  destruct (String.eqb covType CoverageTypeDoc);
    [destruct (Column.Doc col); f_equal; lia|].
  destruct (String.eqb covType CoverageTypeTest);
    [destruct (Column.Test col); f_equal; lia | f_equal; lia].
Qed.

Lemma tableCoverage_tableReport (covType : CoverageType) (t : Table.t) :
  tableCoverage covType t = summaryOf (tableReport covType t).
Proof.
  unfold tableCoverage, tableReport, summaryOf.
  rewrite columnCounts_columnReports.
  destruct (columnReports covType (Table.Columns t)) as [[cols cov] tot].
  reflexivity.
Qed.

Lemma detailed_fold_agrees (covType : CoverageType)
    (l : list (string * Table.t)) :
  foldr (uncurry
           (fun (_ : string) table '(reports, totalCovered, totalColumns) =>
              (reports ++ [tableCoverage covType table],
               totalCovered
               + TableCoverage.Covered (tableCoverage covType table),
               totalColumns
               + TableCoverage.Total (tableCoverage covType table))))
        ([], 0, 0) l
  = let '(tables, globalCovered, globalTotal) :=
      foldr (uncurry
               (fun (_ : string) table '(tables, globalCovered, globalTotal) =>
                  (tables ++ [tableReport covType table],
                   globalCovered
                   + TableReport.Covered (tableReport covType table),
                   globalTotal
                   + TableReport.Total (tableReport covType table))))
            ([], 0, 0) l in
    (summaryOf <$> tables, globalCovered, globalTotal).
Proof.
  induction l as [|[k t] l IH]; simpl; [reflexivity|].
  rewrite IH. clear IH.
  destruct (foldr _ ([], 0, 0) l) as [[tables gc] gt]. simpl.
  rewrite tableCoverage_tableReport, fmap_app. reflexivity.
Qed.

(** The detailed report printed on the console and the JSON report
    agree: same kind, same global counts, as many tables as the catalog
    has, and the same name, covered count and total for each table. *)
Theorem computeDetailedCoverage_agrees (c : Catalog.t)
    (covType : CoverageType) :
  let d := computeDetailedCoverage c covType in
  let r := computeJSONReport c covType in
  DetailedCoverageReport.CovType d = JSONReport.CovType r /\
  DetailedCoverageReport.TotalCovered d = JSONReport.Covered r /\
  DetailedCoverageReport.TotalColumns d = JSONReport.Total r /\
  DetailedCoverageReport.TableCount d
  = Z.of_nat (length (JSONReport.Tables r)) /\
  DetailedCoverageReport.TableReports d
    ≡ₚ summaryOf <$> JSONReport.Tables r.
Proof.
  destruct (computeJSONReport_sums c covType) as (_ & _ & Hlen & _).
  revert Hlen.
  unfold computeDetailedCoverage, computeJSONReport, tableReports.
  cbv zeta. rewrite !map_fold_foldr, detailed_fold_agrees.
  destruct (foldr _ ([], 0, 0) (map_to_list (Catalog.Tables c)))
    as [[tables gc] gt].
  simpl. intros Hlen. rewrite Hlen. repeat split; reflexivity.
Qed.


(** ** Resolution, in full *)

(** [GetTable] succeeds exactly when one partition holds the identifier,
    and then returns that partition's node; with none it reports the
    table as not found, with two or more as a duplicate. *)
Theorem GetTable_by_holders (m : Manifest.t) (tableID : string) :
  GetTable m tableID
  = match holders m tableID with
    | [] => (∅, Some (ErrTableNotFound tableID))
    | [t] => (t, None)
    | _ => (∅, Some (ErrDuplicateID tableID))
    end.
Proof.
  unfold GetTable, holders. simpl.
  destruct (Manifest.Sources m !! tableID),
           (Manifest.Models m !! tableID),
           (Manifest.Seeds m !! tableID),
           (Manifest.Snapshots m !! tableID); reflexivity.
Qed.

(** ** The merge of the two collections of the manifest document *)

Lemma copyInto_lookup (src dst : gmap string value) (k : string) :
  copyInto src dst !! k
  = match src !! k with
    | Some v => Some v
    | None => dst !! k
    end.
Proof.
  unfold copyInto. revert k.
  apply (map_fold_weak_ind
           (fun (r : gmap string value) (m : gmap string value) =>
              forall k, r !! k = match m !! k with
                                 | Some v => Some v
                                 | None => dst !! k
                                 end)).
  - intros k. rewrite lookup_empty. reflexivity.
  - intros i x m r Hi IH k.
    destruct (decide (i = k)) as [->|Hne].
    + rewrite !lookup_insert_eq. reflexivity.
    + rewrite !lookup_insert_ne by assumption. apply IH.
Qed.

(** In the map that [loadManifest] hands to [ManifestFromNodes], a key
    holds the entry of the [nodes] collection when that collection has the
    key, and the entry of the [sources] collection otherwise; a collection
    that is not an object contributes nothing. *)
Theorem mergedNodes_lookup (manifestJSON : gmap string value) (k : string) :
  let collection key :=
    default ∅ (asObject (index manifestJSON key)) in
  mergedNodes manifestJSON !! k
  = match collection "nodes" !! k with
    | Some v => Some v
    | None => collection "sources" !! k
    end.
Proof.
  unfold mergedNodes. simpl.
  destruct (asObject (index manifestJSON "sources")) as [sources|];
    destruct (asObject (index manifestJSON "nodes")) as [n|]; simpl;
    rewrite ?copyInto_lookup, ?lookup_empty;
    repeat match goal with
           | |- context [?m !! k] => destruct (m !! k)
           end; reflexivity.
Qed.

(** ** Path normalization *)

Lemma replaceByte_fixed (old new : Ascii.ascii) (path : string) :
  old <> new ->
  replaceByte old new (replaceByte old new path) = replaceByte old new path.
Proof.
  intros Hne. induction path as [|c rest IH]; simpl; [reflexivity|].
  rewrite IH. f_equal.
  destruct (Ascii.eqb c old) eqn:E; [|rewrite E; reflexivity].
  destruct (Ascii.eqb new old) eqn:E'; [|reflexivity].
  apply Ascii.eqb_eq in E'. congruence.
Qed.

Lemma replaceByte_absent (old new : Ascii.ascii) (path : string) :
  old <> new ->
  forall c, In c (String.list_ascii_of_string (replaceByte old new path)) -> c <> old.
Proof.
  intros Hne. induction path as [|b rest IH]; simpl; intros c Hc; [contradiction|].
  destruct Hc as [<- | Hc]; [|apply IH; exact Hc].
  destruct (Ascii.eqb b old) eqn:E; [congruence|].
  apply Ascii.eqb_neq in E. exact E.
Qed.

Lemma replaceByte_length (old new : Ascii.ascii) (path : string) :
  String.length (replaceByte old new path) = String.length path.
Proof. induction path as [|c rest IH]; simpl; congruence. Qed.

(** [ToSlash] keeps the length of a path and is idempotent, so a path
    normalized when the manifest is read is unchanged when the filter
    normalizes it again; on a host whose separator is not the slash, no
    separator is left in its result. *)
Theorem ToSlash_normal_form (path : string) :
  ToSlash (ToSlash path) = ToSlash path /\
  String.length (ToSlash path) = String.length path /\
  (Separator <> "/"%char ->
   forall c, In c (String.list_ascii_of_string (ToSlash path)) -> c <> Separator).
Proof.
  unfold ToSlash. destruct (Ascii.eqb Separator "/") eqn:E.
  - apply Ascii.eqb_eq in E. repeat split; try reflexivity. congruence.
  - apply Ascii.eqb_neq in E. split; [|split].
    + apply replaceByte_fixed. exact E.
    + apply replaceByte_length.
    + intros _. apply replaceByte_absent. exact E.
Qed.

(** ** More on the path filter *)

Lemma Catalog_eq (c1 c2 : Catalog.t) :
  (forall id, Catalog.Tables c1 !! id = Catalog.Tables c2 !! id) -> c1 = c2.
Proof.
  destruct c1 as [t1], c2 as [t2]. simpl. intros H.
  f_equal. apply map_eq. exact H.
Qed.

Lemma FilterTables_lookup_total (c : Catalog.t) (fs : list string)
    (id : string) :
  Catalog.Tables (FilterTables c fs) !! id
  = match Catalog.Tables c !! id with
    | Some t =>
        if matchesFilter (ToSlash (Table.OriginalFilePath t)) fs
        then Some t else None
    | None => None
    end.
Proof.
  apply option_eq. intros t. rewrite FilterTables_lookup.
  destruct (Catalog.Tables c !! id) as [t0|].
  - destruct (matchesFilter (ToSlash (Table.OriginalFilePath t0)) fs) eqn:E.
    + split; [intros [H _]; exact H | intros H; split; congruence].
    + split; [intros [H Ht]; congruence | discriminate].
  - split; [intros [H _]; exact H | discriminate].
Qed.

(** Filtering composes as an intersection: filtering a filtered catalog
    keeps the tables that pass both filters, in either order, and
    filtering twice by the same prefixes changes nothing more. *)
Theorem FilterTables_composes (c : Catalog.t) (fs gs : list string) :
  (forall id t,
      Catalog.Tables (FilterTables (FilterTables c fs) gs) !! id = Some t <->
      Catalog.Tables (FilterTables c fs) !! id = Some t /\
      Catalog.Tables (FilterTables c gs) !! id = Some t) /\
  FilterTables (FilterTables c fs) gs = FilterTables (FilterTables c gs) fs /\
  FilterTables (FilterTables c fs) fs = FilterTables c fs.
Proof.
  split; [|split].
  - intros id t. rewrite !FilterTables_lookup. split.
    + intros ((Hc & Hf) & Hg). auto.
    + intros ((Hc & Hf) & (_ & Hg)). auto.
  - apply Catalog_eq. intros id. rewrite !FilterTables_lookup_total.
    destruct (Catalog.Tables c !! id) as [t|]; [|reflexivity].
    destruct (matchesFilter (ToSlash (Table.OriginalFilePath t)) fs) eqn:Ef;
      destruct (matchesFilter (ToSlash (Table.OriginalFilePath t)) gs) eqn:Eg;
      rewrite ?Ef, ?Eg; reflexivity.
  - apply Catalog_eq. intros id. rewrite !FilterTables_lookup_total.
    destruct (Catalog.Tables c !! id) as [t|]; [|reflexivity].
    destruct (matchesFilter (ToSlash (Table.OriginalFilePath t)) fs) eqn:Ef;
      rewrite ?Ef; reflexivity.
Qed.

Lemma ToSlash_empty (f : string) : ToSlash f = "" <-> f = "".
Proof.
  unfold ToSlash. destruct (Ascii.eqb Separator "/"); [reflexivity|].
  destruct f; simpl; split; intros H; first [reflexivity | discriminate].
Qed.

(** Degenerate prefixes: an empty list of prefixes keeps no table; a
    list that holds the empty prefix keeps every table; and a table without
    origin path is kept exactly when the empty prefix is in the list. *)
Theorem FilterTables_degenerate (c : Catalog.t) (fs : list string) :
  Catalog.Tables (FilterTables c []) = ∅ /\
  ("" ∈ fs -> FilterTables c fs = c) /\
  (forall id t,
      Catalog.Tables c !! id = Some t ->
      Table.OriginalFilePath t = "" ->
      (Catalog.Tables (FilterTables c fs) !! id = Some t <-> "" ∈ fs)).
Proof.
  split; [|split].
  - apply map_eq. intros id. rewrite FilterTables_lookup_total, lookup_empty.
    destruct (Catalog.Tables c !! id); reflexivity.
  - intros Hin. apply Catalog_eq. intros id.
    rewrite FilterTables_lookup_total.
    destruct (Catalog.Tables c !! id) as [t|]; [|reflexivity].
    assert (H : matchesFilter (ToSlash (Table.OriginalFilePath t)) fs = true).
    { apply matchesFilter_spec. exists "". split; [exact Hin|].
      replace (ToSlash "") with "" by (symmetry; apply ToSlash_empty; reflexivity).
      exists (ToSlash (Table.OriginalFilePath t)). reflexivity. }
    rewrite H. reflexivity.
  - intros id t Ht Hpath. rewrite FilterTables_lookup, matchesFilter_spec, Hpath.
    replace (ToSlash "") with "" by (symmetry; apply ToSlash_empty; reflexivity).
    split.
    + intros (_ & f & Hf & rest & Hrest).
      assert (Hempty : ToSlash f = "").
      { destruct (ToSlash f); [reflexivity | discriminate]. }
      apply (proj1 (ToSlash_empty f)) in Hempty. subst f. exact Hf.
    + intros Hin. split; [exact Ht|]. exists "". split; [exact Hin|].
      replace (ToSlash "") with "" by (symmetry; apply ToSlash_empty; reflexivity).
      exists "". reflexivity.
Qed.


(** ** Normalization of a manifest table *)

Lemma normalizeColumns_spec (cols : gmap string value) :
  (normalizeColumns cols = Panic <->
   exists k col, cols !! k = Some (VObj col) /\ lacksString col "name") /\
  (forall normCols,
      normalizeColumns cols = Done normCols ->
      (forall colName,
          colName ∈ dom normCols <->
          exists k col s, cols !! k = Some (VObj col) /\
                          col !! "name" = Some (VStr s) /\
                          colName = ToLower s) /\
      (forall colName v,
          normCols !! colName = Some v ->
          exists k col,
            cols !! k = Some (VObj col) /\
            v = VObj (<["name" := VStr colName]> col))).
Proof.
  unfold normalizeColumns.
  apply (map_fold_weak_ind
           (fun (r : run (gmap string value)) (m : gmap string value) =>
              (r = Panic <->
               exists k col, m !! k = Some (VObj col) /\ lacksString col "name") /\
              (forall normCols,
                  r = Done normCols ->
                  (forall colName,
                      colName ∈ dom normCols <->
                      exists k col s, m !! k = Some (VObj col) /\
                                      col !! "name" = Some (VStr s) /\
                                      colName = ToLower s) /\
                  (forall colName v,
                      normCols !! colName = Some v ->
                      exists k col,
                        m !! k = Some (VObj col) /\
                        v = VObj (<["name" := VStr colName]> col))))).
  - split.
    + split; [discriminate|].
      intros (k & col & H & _). rewrite lookup_empty in H. discriminate.
    + intros normCols H. injection H as <-. split.
      * intros colName. rewrite dom_empty_L. split.
        -- intros H. apply not_elem_of_empty in H. contradiction.
        -- intros (k & col & s & H & _). rewrite lookup_empty in H. discriminate.
      * intros colName v H. rewrite lookup_empty in H. discriminate.
  - intros i x m r Hi [IHp IHd].
    assert (Hold : forall k (w : value), m !! k = Some w -> <[i:=x]> m !! k = Some w).
    { intros k w Hk. rewrite lookup_insert_ne; [exact Hk | congruence]. }
    destruct r as [acc|]; run_simpl.
    + destruct (IHd acc eq_refl) as [IHdom IHval]. clear IHd.
      destruct (asObject x) as [col|] eqn:Ex.
      * destruct x; try discriminate. injection Ex as ->.
        destruct (asString (index col "name")) as [s|] eqn:Es.
        -- apply asString_index_Some in Es. split.
           ++ split; [discriminate|].
              intros (k & c & Hk & Hbad). exfalso.
              destruct (decide (i = k)) as [->|Hne].
              ** rewrite lookup_insert_eq in Hk. injection Hk as <-.
                 exact (Hbad s Es).
              ** rewrite lookup_insert_ne in Hk by assumption.
                 assert (Hp : @Done (gmap string value) acc = Panic)
                   by (apply IHp; eauto).
                 discriminate.
           ++ intros normCols H. injection H as <-. split.
              ** intros colName.
                 rewrite dom_insert_L, elem_of_union, elem_of_singleton, IHdom.
                 split.
                 --- intros [-> | (k & c & s' & Hk & Hs)].
                     +++ exists i, col, s. rewrite lookup_insert_eq. auto.
                     +++ exists k, c, s'. split; [apply Hold; exact Hk | exact Hs].
                 --- intros (k & c & s' & Hk & Hs & ->).
                     destruct (decide (i = k)) as [->|Hne].
                     +++ rewrite lookup_insert_eq in Hk. injection Hk as <-.
                         left. congruence.
                     +++ rewrite lookup_insert_ne in Hk by assumption.
                         right. exists k, c, s'. auto.
              ** intros colName v Hv.
                 destruct (decide (ToLower s = colName)) as [<-|Hne].
                 --- rewrite lookup_insert_eq in Hv. injection Hv as <-.
                     exists i, col. rewrite lookup_insert_eq. auto.
                 --- rewrite lookup_insert_ne in Hv by assumption.
                     destruct (IHval _ _ Hv) as (k & c & Hk & ->).
                     exists k, c. split; [apply Hold; exact Hk | reflexivity].
        -- apply asString_index_None in Es. split.
           ++ split; [|reflexivity]. intros _.
              exists i, col. rewrite lookup_insert_eq. auto.
           ++ discriminate.
      * split.
        -- split; [discriminate|].
           intros (k & c & Hk & Hbad). exfalso.
           destruct (decide (i = k)) as [->|Hne].
           ++ rewrite lookup_insert_eq in Hk. injection Hk as ->. discriminate.
           ++ rewrite lookup_insert_ne in Hk by assumption.
              assert (Hp : @Done (gmap string value) acc = Panic)
                by (apply IHp; eauto).
              discriminate.
        -- intros normCols H. injection H as <-. split.
           ++ intros colName. rewrite IHdom. split.
              ** intros (k & c & s' & Hk & Hs).
                 exists k, c, s'. split; [apply Hold; exact Hk | exact Hs].
              ** intros (k & c & s' & Hk & Hs).
                 destruct (decide (i = k)) as [->|Hne].
                 --- rewrite lookup_insert_eq in Hk. injection Hk as ->.
                     discriminate.
                 --- rewrite lookup_insert_ne in Hk by assumption.
                     exists k, c, s'. auto.
           ++ intros colName v Hv.
              destruct (IHval _ _ Hv) as (k & c & Hk & ->).
              exists k, c. split; [apply Hold; exact Hk | reflexivity].
    + split; [|discriminate]. split; [|reflexivity]. intros _.
      destruct (proj1 IHp eq_refl) as (k & c & Hk & Hbad).
      exists k, c. split; [apply Hold; exact Hk | exact Hbad].
Qed.

(** [normalizeTable] panics only when a column of the table that is an
    object has no string [name], and does panic then. *)
Theorem normalizeTable_panics_iff (table : gmap string value) :
  normalizeTable table = Panic <->
  exists cols k col,
    asObject (index table "columns") = Some cols /\
    cols !! k = Some (VObj col) /\
    lacksString col "name".
Proof.
  split.
  - unfold normalizeTable.
    destruct (asObject (index table "columns")) as [cols|]; run_simpl;
      [|discriminate].
    destruct (normalizeColumns cols) as [normCols|] eqn:En; run_simpl;
      [discriminate|].
    intros _. apply (proj1 (normalizeColumns_spec cols)) in En.
    destruct En as (k & col & Hk & Hbad). exists cols, k, col. auto.
  - intros (cols & k & col & Hcols & Hk & Hbad).
    eapply normalizeTable_panics; eauto.
Qed.


Lemma index_insert_ne (m : gmap string value) (i j : string) (v : value) :
  i <> j -> index (<[i := v]> m) j = index m j.
Proof. intros H. unfold index. rewrite lookup_insert_ne by exact H. reflexivity. Qed.

(** When [normalizeTable] returns, the table's [name] is the lowercased
    [schema.name] of the input, its [original_file_path], when it is a
    string, is slash-normalized, its columns, when they are an object, are
    re-keyed by the lowercased names of the columns that are objects, each
    stored column carrying its key as [name], and no other field changes. *)
Theorem normalizeTable_result (table t' : gmap string value) :
  normalizeTable table = Done t' ->
  t' !! "name"
  = Some (VStr (ToLower (default "" (asString (index table "schema")) +:+ "."
                         +:+ default "" (asString (index table "name"))))) /\
  (forall pathStr,
      asString (index table "original_file_path") = Some pathStr ->
      t' !! "original_file_path" = Some (VStr (ToSlash pathStr))) /\
  (forall k, k <> "name" -> k <> "original_file_path" -> k <> "columns" ->
             t' !! k = table !! k) /\
  (forall cols,
      asObject (index table "columns") = Some cols ->
      exists normCols,
        t' !! "columns" = Some (VObj normCols) /\
        (forall colName,
            colName ∈ dom normCols <->
            exists k col s, cols !! k = Some (VObj col) /\
                            col !! "name" = Some (VStr s) /\
                            colName = ToLower s) /\
        (forall colName v,
            normCols !! colName = Some v ->
            exists col, v = VObj col /\ col !! "name" = Some (VStr colName))).
Proof.
  unfold normalizeTable. intros H.
  assert (Hshape : exists t1,
             t' = <["name" := VStr (ToLower
                      (default "" (asString (index table "schema")) +:+ "."
                       +:+ default "" (asString (index table "name"))))]>
                    (match asString (index table "original_file_path") with
                     | Some pathStr =>
                         <["original_file_path" := VStr (ToSlash pathStr)]> t1
                     | None => t1
                     end) /\
             match asObject (index table "columns") with
             | Some cols =>
                 exists normCols, normalizeColumns cols = Done normCols /\
                                  t1 = <["columns" := VObj normCols]> table
             | None => t1 = table
             end).
  { destruct (asObject (index table "columns")) as [cols|]; run_simpl.
    - destruct (normalizeColumns cols) as [normCols|]; run_simpl; [|discriminate].
      exists (<["columns" := VObj normCols]> table).
      split; [|eauto].
      rewrite !index_insert_ne in H by discriminate.
      destruct (asString (index table "original_file_path"));
        rewrite ?index_insert_ne in H by discriminate;
        injection H as <-; reflexivity.
    - exists table. split; [|reflexivity].
      destruct (asString (index table "original_file_path"));
        rewrite ?index_insert_ne in H by discriminate;
        injection H as <-; reflexivity. }
  clear H. destruct Hshape as (t1 & -> & Ht1).
  split; [apply lookup_insert_eq|]. split; [|split].
  - intros pathStr Hp. rewrite Hp.
    rewrite lookup_insert_ne by discriminate. apply lookup_insert_eq.
  - intros k Hn Hp Hc. rewrite lookup_insert_ne by congruence.
    assert (Ht1k : t1 !! k = table !! k).
    { destruct (asObject (index table "columns")).
      - destruct Ht1 as (normCols & _ & ->).
        rewrite lookup_insert_ne by congruence. reflexivity.
      - rewrite Ht1. reflexivity. }
    destruct (asString (index table "original_file_path"));
      [rewrite lookup_insert_ne by congruence|]; exact Ht1k.
  - intros cols Hcols. rewrite Hcols in Ht1.
    destruct Ht1 as (normCols & Hn & ->).
    destruct (proj2 (normalizeColumns_spec cols) normCols Hn) as [Hdom Hval].
    exists normCols. split; [|split].
    + rewrite lookup_insert_ne by discriminate.
      destruct (asString (index table "original_file_path"));
        [rewrite lookup_insert_ne by discriminate|]; apply lookup_insert_eq.
    + exact Hdom.
    + intros colName v Hv. destruct (Hval _ _ Hv) as (k & col & _ & ->).
      eexists. split; [reflexivity | apply lookup_insert_eq].
Qed.


(** ** When the catalog build panics *)

Lemma columnsFromRaw_panics_iff (columnsRaw : gmap string value) :
  columnsFromRaw columnsRaw = Panic <->
  exists k colNode,
    columnsRaw !! k = Some (VObj colNode) /\ lacksString colNode "name".
Proof.
  unfold columnsFromRaw.
  apply (map_fold_weak_ind
           (fun (r : run (gmap string Column.t)) (m : gmap string value) =>
              r = Panic <->
              exists k colNode,
                m !! k = Some (VObj colNode) /\ lacksString colNode "name")).
  - split; [discriminate|].
    intros (k & c & H & _). rewrite lookup_empty in H. discriminate.
  - intros i x m r Hi IH.
    assert (Hold : forall k (w : value), m !! k = Some w -> <[i:=x]> m !! k = Some w).
    { intros k w Hk. rewrite lookup_insert_ne; [exact Hk | congruence]. }
    destruct r as [acc|]; run_simpl.
    + assert (Hclean : forall k c, m !! k = Some (VObj c) ->
                                   lacksString c "name" -> False).
      { intros k c Hk Hbad.
        assert (Hp : @Done (gmap string Column.t) acc = Panic)
          by (apply IH; eauto).
        discriminate. }
      destruct x as [| | | | |colNode]; simpl;
        try (split; [discriminate|];
             intros (k & c & Hk & Hbad); exfalso;
             destruct (decide (i = k)) as [->|Hne];
             [ rewrite lookup_insert_eq in Hk; discriminate
             | rewrite lookup_insert_ne in Hk by assumption; eauto ]).
      unfold NewColumnFromNode.
      destruct (asString (index colNode "name")) as [s|] eqn:Es; simpl.
      * apply asString_index_Some in Es. split; [discriminate|].
        intros (k & c & Hk & Hbad). exfalso.
        destruct (decide (i = k)) as [->|Hne].
        -- rewrite lookup_insert_eq in Hk. injection Hk as <-.
           exact (Hbad s Es).
        -- rewrite lookup_insert_ne in Hk by assumption. eauto.
      * apply asString_index_None in Es. split; [|reflexivity].
        intros _. exists i, colNode. rewrite lookup_insert_eq. auto.
    + split; [|reflexivity]. intros _.
      destruct (proj1 IH eq_refl) as (k & c & Hk & Hbad).
      exists k, c. split; [apply Hold; exact Hk | exact Hbad].
Qed.

(** [NewTableFromNode] panics exactly when the [unique_id] is a string
    that [GetTable] resolves and either a column of the catalog node that
    is an object has no string [name], or the resolved manifest table has
    none; a node that fails to resolve never panics. *)
Theorem NewTableFromNode_panics_iff (node : gmap string value)
    (manifest : Manifest.t) :
  NewTableFromNode node manifest = Panic <->
  exists uniqueID manifestTable,
    asString (index node "unique_id") = Some uniqueID /\
    GetTable manifest uniqueID = (manifestTable, None) /\
    ((exists columnsRaw k colNode,
         asObject (index node "columns") = Some columnsRaw /\
         columnsRaw !! k = Some (VObj colNode) /\
         lacksString colNode "name") \/
     lacksString manifestTable "name").
Proof.
  unfold NewTableFromNode.
  destruct (asString (index node "unique_id")) as [uid|].
  2:{ split; [discriminate | intros (u & mt & H & _); discriminate]. }
  destruct (GetTable manifest uid) as [mt [e|]] eqn:Eg.
  { split; [discriminate | intros (u & mt' & H & H' & _)].
    injection H as <-. congruence. }
  destruct (asObject (index node "columns")) as [raw|].
  - destruct (columnsFromRaw raw) as [cols|] eqn:Ec; run_simpl.
    + destruct (asString (index mt "name")) as [n|] eqn:En.
      * split; [discriminate|].
        intros (u & mt' & Hu & Hg & [(raw' & k & c & Hraw & Hk & Hbad) | Hbad]).
        -- injection Hraw as <-.
           assert (Hp : columnsFromRaw raw = Panic)
             by (apply columnsFromRaw_panics_iff; eauto).
           congruence.
        -- injection Hu as <-. rewrite Eg in Hg. injection Hg as <-.
           apply asString_index_None in Hbad. congruence.
      * split; [|reflexivity]. intros _.
        exists uid, mt. apply asString_index_None in En. auto.
    + split; [|reflexivity]. intros _.
      apply columnsFromRaw_panics_iff in Ec as (k & c & Hk & Hbad).
      exists uid, mt. split; [reflexivity|]. split; [exact Eg|].
      left. exists raw, k, c. auto.
  - run_simpl. destruct (asString (index mt "name")) as [n|] eqn:En.
    + split; [discriminate|].
      intros (u & mt' & Hu & Hg & [(raw' & k & c & Hraw & _) | Hbad]).
      * discriminate.
      * injection Hu as <-. rewrite Eg in Hg. injection Hg as <-.
        apply asString_index_None in Hbad. congruence.
    + split; [|reflexivity]. intros _.
      exists uid, mt. apply asString_index_None in En. auto.
Qed.


(** ** What [ManifestFromNodes] puts in the index *)

Lemma default_string_Some (o : option string) (s : string) :
  default "" o = s -> s <> "" -> o = Some s.
Proof. destruct o; simpl; intros H Hne; congruence. Qed.

Lemma manifestStep_partition (v : value) (m0 m1 : Manifest.t) :
  manifestStep v m0 = Done m1 ->
  forall rt id t,
    partitionOf m1 rt !! id = Some t ->
    partitionOf m0 rt !! id = Some t \/
    exists node,
      v = VObj node /\
      asString (index node "resource_type") = Some rt /\
      id = default "" (asString (index node "unique_id")) /\
      normalizeTable node = Done t.
Proof.
  intros H rt id t Hl. unfold manifestStep in H.
  destruct v as [| | | | |node]; simpl in H;
    try (injection H as <-; left; exact Hl).
  remember (default "" (asString (index node "resource_type"))) as rt0 eqn:Hrt0
    in H.
  symmetry in Hrt0.
  assert (Hsome : forall s, rt0 = s -> s <> "" ->
                            asString (index node "resource_type") = Some s).
  { intros s Hs Hne. apply default_string_Some; congruence. }
  unfold partitionOf in Hl |- *.
  destruct (String.eqb rt0 "source") eqn:E1;
    [|destruct (String.eqb rt0 "model") eqn:E2;
      [|destruct (String.eqb rt0 "seed") eqn:E3;
        [|destruct (String.eqb rt0 "snapshot") eqn:E4;
          [|destruct (String.eqb rt0 "test") eqn:E5]]]].
  all: try (destruct (normalizeTable node) as [t0|] eqn:En; run_simpl;
            [|discriminate]).
  all: injection H as <-; simpl in Hl.
  all: repeat match goal with
              | E : String.eqb _ _ = true |- _ => apply String.eqb_eq in E
              end.
  all: (destruct (String.eqb rt "source") eqn:R1;
        [|destruct (String.eqb rt "model") eqn:R2;
          [|destruct (String.eqb rt "seed") eqn:R3;
            [|destruct (String.eqb rt "snapshot") eqn:R4]]]).
  all: repeat match goal with
              | R : String.eqb _ _ = true |- _ => apply String.eqb_eq in R
              end.
  all: try (left; exact Hl).
  all: (destruct (decide (default "" (asString (index node "unique_id")) = id))
          as [Hid|Hid];
        [ rewrite Hid, lookup_insert_eq in Hl; injection Hl as <-;
          right; exists node; subst rt;
          repeat split; try (symmetry; exact Hid); try exact En;
          apply Hsome; [assumption | discriminate]
        | rewrite lookup_insert_ne in Hl by exact Hid; left; exact Hl ]).
Qed.

Lemma holders_partition (m : Manifest.t) (tableID : string)
    (t : gmap string value) :
  t ∈ holders m tableID <-> exists rt, partitionOf m rt !! tableID = Some t.
Proof.
  unfold holders. simpl. split.
  - intros H.
    destruct (Manifest.Sources m !! tableID) as [a|] eqn:Ea;
      destruct (Manifest.Models m !! tableID) as [b|] eqn:Eb;
      destruct (Manifest.Seeds m !! tableID) as [c|] eqn:Ec;
      destruct (Manifest.Snapshots m !! tableID) as [d|] eqn:Ed;
      simpl in H;
      repeat (apply elem_of_cons in H as [-> | H]);
      try (apply elem_of_nil in H; contradiction);
      first [ exists "source"; exact Ea | exists "model"; exact Eb
            | exists "seed"; exact Ec | exists "snapshot"; exact Ed ].
  - intros (rt & H). unfold partitionOf in H.
    destruct (String.eqb rt "source");
      [|destruct (String.eqb rt "model");
        [|destruct (String.eqb rt "seed");
          [|destruct (String.eqb rt "snapshot");
            [|rewrite lookup_empty in H; discriminate]]]];
      rewrite H; simpl;
      destruct (Manifest.Sources m !! tableID);
      destruct (Manifest.Models m !! tableID);
      destruct (Manifest.Seeds m !! tableID);
      destruct (Manifest.Snapshots m !! tableID); simpl;
      repeat (first [ apply list_elem_of_here | apply list_elem_of_further ]).
Qed.

(** The index that [ManifestFromNodes] returns comes with a nil error,
    and each entry of a partition is the normalized form of a node of the
    input that declares that partition's [resource_type] and is keyed by
    its [unique_id] (the empty string when it has none); in particular
    every table that [GetTable] resolves in it has a string [name]. *)
Theorem ManifestFromNodes_partitions (manifestNodes : gmap string value)
    (m : Manifest.t) (e : option error) :
  ManifestFromNodes manifestNodes = Done (m, e) ->
  e = None /\
  (forall rt id t,
      partitionOf m rt !! id = Some t ->
      exists key node,
        manifestNodes !! key = Some (VObj node) /\
        asString (index node "resource_type") = Some rt /\
        id = default "" (asString (index node "unique_id")) /\
        normalizeTable node = Done t) /\
  (forall id t,
      GetTable m id = (t, None) -> exists s, t !! "name" = Some (VStr s)).
Proof.
  unfold ManifestFromNodes. intros H.
  assert (Hfold : forall mf,
             map_fold (fun (_ : string) v (acc : run Manifest.t) =>
                         m ← acc; manifestStep v m)
                      (Done (Manifest.mk ∅ ∅ ∅ ∅ ∅)) manifestNodes = Done mf ->
             forall rt id t,
               partitionOf mf rt !! id = Some t ->
               exists key node,
                 manifestNodes !! key = Some (VObj node) /\
                 asString (index node "resource_type") = Some rt /\
                 id = default "" (asString (index node "unique_id")) /\
                 normalizeTable node = Done t).
  { apply (map_fold_weak_ind
             (fun (r : run Manifest.t) (visited : gmap string value) =>
                forall mf, r = Done mf ->
                  forall rt id t,
                    partitionOf mf rt !! id = Some t ->
                    exists key node,
                      visited !! key = Some (VObj node) /\
                      asString (index node "resource_type") = Some rt /\
                      id = default "" (asString (index node "unique_id")) /\
                      normalizeTable node = Done t)).
    - intros mf Hmf. injection Hmf as <-. intros rt id t Hl.
      unfold partitionOf in Hl. simpl in Hl.
      repeat (destruct (String.eqb rt _)); rewrite lookup_empty in Hl;
        discriminate.
    - intros i x visited r Hi IH mf Hmf rt id t Hl.
      destruct r as [m0|]; run_simpl; [|discriminate].
      destruct (manifestStep_partition _ _ _ Hmf _ _ _ Hl)
        as [Hold | (node & -> & Hrt & Hid & Hn)].
      + destruct (IH m0 eq_refl _ _ _ Hold) as (key & node & Hk & Hrest).
        exists key, node. split; [|exact Hrest].
        rewrite lookup_insert_ne; [exact Hk | congruence].
      + exists i, node. rewrite lookup_insert_eq. auto. }
  destruct (map_fold _ _ manifestNodes) as [mf|] eqn:Ef; run_simpl;
    [|discriminate].
  injection H as <- <-. split; [reflexivity|]. split.
  - apply Hfold. reflexivity.
  - intros id t Hg. rewrite GetTable_by_holders in Hg.
    assert (Hin : t ∈ holders mf id).
    { destruct (holders mf id) as [|a [|b l]]; try discriminate.
      injection Hg as <-. apply list_elem_of_here. }
    apply holders_partition in Hin as (rt & Hl).
    destruct (Hfold mf eq_refl _ _ _ Hl) as (key & node & _ & _ & _ & Hn).
    eexists. apply (normalizeTable_result _ _ Hn).
Qed.


Lemma manifestStep_tests (v : value) (m0 m1 : Manifest.t) :
  manifestStep v m0 = Done m1 ->
  forall tableID columnName w,
    w ∈ testsForColumn m1 tableID columnName <->
    w ∈ testsForColumn m0 tableID columnName \/
    exists node,
      w = VObj node /\ v = VObj node /\
      asString (index node "resource_type") = Some "test" /\
      testKey node = Some (tableID, columnName).
Proof.
  intros H tableID columnName w.
  assert (Hsame : Manifest.Tests m1 = Manifest.Tests m0 ->
                  (forall node, v = VObj node ->
                     asString (index node "resource_type") = Some "test" ->
                     testKey node = Some (tableID, columnName) -> False) ->
                  w ∈ testsForColumn m1 tableID columnName <->
                  w ∈ testsForColumn m0 tableID columnName \/
                  exists node,
                    w = VObj node /\ v = VObj node /\
                    asString (index node "resource_type") = Some "test" /\
                    testKey node = Some (tableID, columnName)).
  { intros Heq Hnot. unfold testsForColumn. rewrite Heq. split; [auto|].
    intros [Hw | (node & _ & Hv & Hrt & Hk)]; [exact Hw|].
    exfalso. eapply Hnot; eauto. }
  unfold manifestStep in H.
  destruct v as [| | | | |node]; simpl in H;
    try (injection H as <-; apply Hsame; [reflexivity | discriminate]).
  remember (default "" (asString (index node "resource_type"))) as rt0 eqn:Hrt0
    in H.
  assert (Hnot : rt0 <> "test" ->
                 forall node', VObj node = VObj node' ->
                   asString (index node' "resource_type") = Some "test" ->
                   testKey node' = Some (tableID, columnName) -> False).
  { intros Hne node' Heq Hrt _. injection Heq as <-.
    rewrite Hrt in Hrt0. simpl in Hrt0. congruence. }
  destruct (String.eqb rt0 "source") eqn:E1;
    [|destruct (String.eqb rt0 "model") eqn:E2;
      [|destruct (String.eqb rt0 "seed") eqn:E3;
        [|destruct (String.eqb rt0 "snapshot") eqn:E4;
          [|destruct (String.eqb rt0 "test") eqn:E5]]]].
  1-4: destruct (normalizeTable node) as [t0|]; run_simpl; [|discriminate].
  1-4: injection H as <-; apply Hsame; [reflexivity|]; apply Hnot.
  1-4: match goal with
       | E : String.eqb _ _ = true |- _ =>
           apply String.eqb_eq in E; rewrite E; discriminate
       end.
  - injection H as <-. apply String.eqb_eq in E5.
    assert (Hrt : asString (index node "resource_type") = Some "test").
    { apply default_string_Some; [congruence | discriminate]. }
    unfold addTest.
    destruct (testKey node) as [[tid cn]|] eqn:Ek.
    + destruct m0 as [srcs mods seeds snaps tests]. simpl.
      rewrite testsForColumn_appendTest.
      destruct (decide ((tableID, columnName) = (tid, cn))) as [Heq|Hne].
      * injection Heq as <- <-. rewrite elem_of_app, list_elem_of_singleton.
        split.
        -- intros [Hw | ->]; [auto|]. right. exists node. auto.
        -- intros [Hw | (node' & -> & Hv & _)]; [auto|].
           injection Hv as <-. auto.
      * split; [auto|].
        intros [Hw | (node' & _ & Hv & _ & Hk)]; [exact Hw|].
        injection Hv as <-. congruence.
    + unfold addTest in Hsame. rewrite Ek in Hsame.
      apply Hsame; [reflexivity|].
      intros node' Hv _ Hk. injection Hv as <-. congruence.
  - injection H as <-. apply Hsame; [reflexivity|]. apply Hnot.
    apply String.eqb_neq. exact E5.
Qed.

(** The test index that [ManifestFromNodes] returns holds, under a
    table and a column, exactly the nodes of the input that declare the
    [resource_type] [test] and whose key resolves to that table and column:
    declarations accumulate, none is invented and none is lost. *)
Theorem ManifestFromNodes_tests (manifestNodes : gmap string value)
    (m : Manifest.t) (e : option error) :
  ManifestFromNodes manifestNodes = Done (m, e) ->
  forall tableID columnName w,
    w ∈ testsForColumn m tableID columnName <->
    exists key node,
      manifestNodes !! key = Some (VObj node) /\
      w = VObj node /\
      asString (index node "resource_type") = Some "test" /\
      testKey node = Some (tableID, columnName).
Proof.
  unfold ManifestFromNodes. intros H tableID columnName w.
  destruct (map_fold _ _ manifestNodes) as [mf|] eqn:Ef; run_simpl;
    [|discriminate].
  injection H as <- <-. revert mf Ef.
  apply (map_fold_weak_ind
           (fun (r : run Manifest.t) (visited : gmap string value) =>
              forall mf, r = Done mf ->
                w ∈ testsForColumn mf tableID columnName <->
                exists key node,
                  visited !! key = Some (VObj node) /\
                  w = VObj node /\
                  asString (index node "resource_type") = Some "test" /\
                  testKey node = Some (tableID, columnName))).
  - intros mf Hmf. injection Hmf as <-. unfold testsForColumn. simpl.
    rewrite lookup_empty. split.
    + intros Hw. apply elem_of_nil in Hw. contradiction.
    + intros (key & node & Hk & _). rewrite lookup_empty in Hk. discriminate.
  - intros i x visited r Hi IH mf Hmf.
    destruct r as [m0|]; run_simpl; [|discriminate].
    rewrite (manifestStep_tests _ _ _ Hmf), (IH m0 eq_refl). split.
    + intros [(key & node & Hk & Hrest) | (node & -> & -> & Hrest)].
      * exists key, node. split; [|exact Hrest].
        rewrite lookup_insert_ne; [exact Hk | congruence].
      * exists i, node. rewrite lookup_insert_eq. auto.
    + intros (key & node & Hk & -> & Hrest).
      destruct (decide (i = key)) as [->|Hne].
      * rewrite lookup_insert_eq in Hk. injection Hk as ->.
        right. exists node. auto.
      * rewrite lookup_insert_ne in Hk by assumption.
        left. exists key, node. auto.
Qed.


(** ** Where the returned index records a test declaration *)

Lemma testIndex_of_fold (manifestNodes : gmap string value)
    (tableID columnName : string) (w : value) :
  forall mf,
    map_fold (fun (_ : string) v (acc : run Manifest.t) =>
                m ← acc; manifestStep v m)
             (Done (Manifest.mk ∅ ∅ ∅ ∅ ∅)) manifestNodes = Done mf ->
    w ∈ testsForColumn mf tableID columnName <->
    exists key node,
      manifestNodes !! key = Some (VObj node) /\
      w = VObj node /\
      asString (index node "resource_type") = Some "test" /\
      testKey node = Some (tableID, columnName).
Proof.
  apply (map_fold_weak_ind
           (fun (r : run Manifest.t) (visited : gmap string value) =>
              forall mf, r = Done mf ->
                w ∈ testsForColumn mf tableID columnName <->
                exists key node,
                  visited !! key = Some (VObj node) /\
                  w = VObj node /\
                  asString (index node "resource_type") = Some "test" /\
                  testKey node = Some (tableID, columnName))).
  - intros mf Hmf. injection Hmf as <-. unfold testsForColumn. simpl.
    rewrite lookup_empty. split.
    + intros Hw. apply elem_of_nil in Hw. contradiction.
    + intros (key & node & Hk & _). rewrite lookup_empty in Hk. discriminate.
  - intros i x visited r Hi IH mf Hmf.
    destruct r as [m0|]; run_simpl; [|discriminate].
    rewrite (manifestStep_tests _ _ _ Hmf), (IH m0 eq_refl). split.
    + intros [(key & node & Hk & Hrest) | (node & -> & -> & Hrest)].
      * exists key, node. split; [|exact Hrest].
        rewrite lookup_insert_ne; [exact Hk | congruence].
      * exists i, node. rewrite lookup_insert_eq. auto.
    + intros (key & node & Hk & -> & Hrest).
      destruct (decide (i = key)) as [->|Hne].
      * rewrite lookup_insert_eq in Hk. injection Hk as ->.
        right. exists node. auto.
      * rewrite lookup_insert_ne in Hk by assumption.
        left. exists key, node. auto.
Qed.

Lemma declaration_recorded_at_key (manifestNodes : gmap string value)
    (m : Manifest.t) (e : option error) (key : string)
    (node : gmap string value) :
  ManifestFromNodes manifestNodes = Done (m, e) ->
  manifestNodes !! key = Some (VObj node) ->
  asString (index node "resource_type") = Some "test" ->
  forall tableID columnName,
    VObj node ∈ testsForColumn m tableID columnName <->
    testKey node = Some (tableID, columnName).
Proof.
  unfold ManifestFromNodes. intros H Hkey Hrt tableID columnName.
  destruct (map_fold _ _ manifestNodes) as [mf|] eqn:Ef; run_simpl;
    [|discriminate].
  injection H as <- <-.
  rewrite (testIndex_of_fold manifestNodes tableID columnName (VObj node) mf Ef).
  split.
  - intros (key' & node' & _ & Heq & _ & Hk). injection Heq as <-. exact Hk.
  - intros Hk. exists key, node. auto.
Qed.

Lemma resolveTableID_entryID (testName : string) (nodesDep : list value) :
  resolveTableID testName nodesDep
  = entryID (if String.eqb testName "relationships"
             then last nodesDep else head nodesDep).
Proof.
  unfold resolveTableID, entryID.
  destruct (String.eqb testName "relationships").
  - destruct (last nodesDep ≫= asString); reflexivity.
  - destruct (head nodesDep ≫= asString); reflexivity.
Qed.

(** C2, amended: for a node of the input of [ManifestFromNodes] that
    declares the [resource_type] [test] and has a [test_metadata] block and
    a non-empty [depends_on.nodes] list, the returned index records the
    declaration, when its column resolves, under exactly one table and
    column: the table that the last entry of [depends_on.nodes] stands for
    when [test_metadata.name] is [relationships], the first entry for
    every other name (the entry itself when it is a string, the empty
    identifier when it is not), and the lowercased resolved column; when
    the column does not resolve it records the declaration nowhere. *)
Theorem test_recorded_under_last_or_first
    (manifestNodes : gmap string value) (m : Manifest.t) (e : option error)
    (key : string) (node testMeta dependsRaw : gmap string value)
    (nodesDep : list value) :
  ManifestFromNodes manifestNodes = Done (m, e) ->
  manifestNodes !! key = Some (VObj node) ->
  asString (index node "resource_type") = Some "test" ->
  node !! "test_metadata" = Some (VObj testMeta) ->
  asObject (index node "depends_on") = Some dependsRaw ->
  asArray (index dependsRaw "nodes") = Some nodesDep ->
  nodesDep <> [] ->
  forall tableID columnName,
    VObj node ∈ testsForColumn m tableID columnName <->
    resolveColumnName node testMeta <> "" /\
    tableID
    = entryID (if String.eqb (default "" (asString (index testMeta "name")))
                    "relationships"
               then last nodesDep else head nodesDep) /\
    columnName = ToLower (resolveColumnName node testMeta).
Proof.
  intros Hrun Hkey Hrt Hmeta Hdep Hnodes Hne tableID columnName.
  rewrite (declaration_recorded_at_key _ _ _ _ _ Hrun Hkey Hrt).
  rewrite (testKey_qualifying _ _ _ _ Hmeta Hdep Hnodes Hne).
  rewrite resolveTableID_entryID.
  destruct (String.eqb (resolveColumnName node testMeta) "") eqn:Ecol.
  - apply String.eqb_eq in Ecol. split; [discriminate|].
    intros (Hcol & _). congruence.
  - apply String.eqb_neq in Ecol. split.
    + intros H. injection H as <- <-. auto.
    + intros (_ & -> & ->). reflexivity.
Qed.

(** C3: for a node of the input of [ManifestFromNodes] that declares the
    [resource_type] [test] and has a [test_metadata] block and a non-empty
    [depends_on.nodes] list, the column is the first non-empty string among
    the node's [column_name], [test_metadata.kwargs.column_name] and
    [test_metadata.kwargs.arg], in that order; when there is one the
    returned index records the declaration under the resolved table and
    that column lowercased, and under no other column; when all three are
    empty or absent the declaration is in no list of the returned index. *)
Theorem test_recorded_under_first_nonempty_column
    (manifestNodes : gmap string value) (m : Manifest.t) (e : option error)
    (key : string) (node testMeta dependsRaw : gmap string value)
    (nodesDep : list value) :
  ManifestFromNodes manifestNodes = Done (m, e) ->
  manifestNodes !! key = Some (VObj node) ->
  asString (index node "resource_type") = Some "test" ->
  node !! "test_metadata" = Some (VObj testMeta) ->
  asObject (index node "depends_on") = Some dependsRaw ->
  asArray (index dependsRaw "nodes") = Some nodesDep ->
  nodesDep <> [] ->
  let kwargs := asObject (index testMeta "kwargs") in
  let resolved :=
    firstNonEmpty [stringField (Some node) "column_name";
                   stringField kwargs "column_name";
                   stringField kwargs "arg"] in
  let tableID :=
    resolveTableID (default "" (asString (index testMeta "name"))) nodesDep in
  (resolved <> "" ->
   VObj node ∈ testsForColumn m tableID (ToLower resolved) /\
   forall tableID' columnName,
     VObj node ∈ testsForColumn m tableID' columnName ->
     tableID' = tableID /\ columnName = ToLower resolved) /\
  (resolved = "" ->
   forall tableID' columnName,
     VObj node ∉ testsForColumn m tableID' columnName).
Proof.
  intros Hrun Hkey Hrt Hmeta Hdep Hnodes Hne kwargs resolved tableID.
  assert (Hrec : forall tableID' columnName,
             VObj node ∈ testsForColumn m tableID' columnName <->
             (if String.eqb resolved "" then None
              else Some (tableID, ToLower resolved))
             = Some (tableID', columnName)).
  { intros tableID' columnName.
    rewrite (declaration_recorded_at_key _ _ _ _ _ Hrun Hkey Hrt).
    rewrite (testKey_qualifying _ _ _ _ Hmeta Hdep Hnodes Hne).
    rewrite resolveColumnName_firstNonEmpty. reflexivity. }
  split.
  - intros Hres. apply String.eqb_neq in Hres. split.
    + apply Hrec. rewrite Hres. reflexivity.
    + intros tableID' columnName Hin. apply Hrec in Hin.
      rewrite Hres in Hin. injection Hin as <- <-. auto.
  - intros Hres tableID' columnName Hin. apply Hrec in Hin.
    rewrite Hres in Hin. discriminate.
Qed.

(** ** The nodes of the catalog document *)

Lemma catalogGroup_elem (group : gmap string value) (acc : list value)
    (v : value) :
  v ∈ map_fold (fun id node (catalogNodes : list value) =>
                  if String.prefix "test." id then catalogNodes
                  else catalogNodes ++ [node])
               acc group <->
  v ∈ acc \/
  exists id, group !! id = Some v /\ String.prefix "test." id = false.
Proof.
  apply (map_fold_weak_ind
           (fun (r : list value) (m : gmap string value) =>
              v ∈ r <->
              v ∈ acc \/
              exists id, m !! id = Some v /\ String.prefix "test." id = false)).
  - split; [auto|]. intros [H | (id & H & _)]; [exact H|].
    rewrite lookup_empty in H. discriminate.
  - intros i x m r Hi IH.
    destruct (String.prefix "test." i) eqn:Ep.
    + rewrite IH. split.
      * intros [H | (id & Hid & Hp)]; [auto|]. right. exists id.
        split; [|exact Hp]. rewrite lookup_insert_ne; [exact Hid | congruence].
      * intros [H | (id & Hid & Hp)]; [auto|]. right. exists id.
        split; [|exact Hp].
        destruct (decide (i = id)) as [->|Hne]; [congruence|].
        rewrite lookup_insert_ne in Hid by assumption. exact Hid.
    + rewrite elem_of_app, list_elem_of_singleton, IH. split.
      * intros [[H | (id & Hid & Hp)] | ->]; [auto| |].
        -- right. exists id. split; [|exact Hp].
           rewrite lookup_insert_ne; [exact Hid | congruence].
        -- right. exists i. rewrite lookup_insert_eq. auto.
      * intros [H | (id & Hid & Hp)]; [auto|].
        destruct (decide (i = id)) as [->|Hne].
        -- rewrite lookup_insert_eq in Hid. injection Hid as ->. auto.
        -- rewrite lookup_insert_ne in Hid by assumption. left. right. eauto.
Qed.

(** The nodes handed to [CatalogFromNodes] are exactly the entries of
    the [sources] and [nodes] collections of the catalog document whose
    identifier does not start with [test.]; a collection that is not an
    object contributes nothing. *)
Theorem catalogNodesOf_elem (catalogJSON : gmap string value) (v : value) :
  v ∈ catalogNodesOf catalogJSON <->
  exists key group id,
    (key = "sources" \/ key = "nodes") /\
    asObject (index catalogJSON key) = Some group /\
    group !! id = Some v /\
    String.prefix "test." id = false.
Proof.
  unfold catalogNodesOf. simpl.
  assert (Hnil : forall x : value, x ∈ @nil value <-> False).
  { intros x. split; [apply elem_of_nil | contradiction]. }
  destruct (asObject (index catalogJSON "sources")) as [gs|] eqn:Es;
    destruct (asObject (index catalogJSON "nodes")) as [gn|] eqn:En;
    rewrite ?catalogGroup_elem, ?Hnil; split.
  - intros [[[] | (id & Hid & Hp)] | (id & Hid & Hp)].
    + exists "sources", gs, id. auto.
    + exists "nodes", gn, id. auto.
  - intros (key & group & id & [-> | ->] & Hg & Hid & Hp).
    + rewrite Es in Hg. injection Hg as <-. left. right. eauto.
    + rewrite En in Hg. injection Hg as <-. right. eauto.
  - intros [[] | (id & Hid & Hp)]. exists "sources", gs, id. auto.
  - intros (key & group & id & [-> | ->] & Hg & Hid & Hp).
    + rewrite Es in Hg. injection Hg as <-. right. eauto.
    + rewrite En in Hg. discriminate.
  - intros [[] | (id & Hid & Hp)]. exists "nodes", gn, id. auto.
  - intros (key & group & id & [-> | ->] & Hg & Hid & Hp).
    + rewrite Es in Hg. discriminate.
    + rewrite En in Hg. injection Hg as <-. right. eauto.
  - intros [].
  - intros (key & group & id & [-> | ->] & Hg & _); congruence.
Qed.

(** ** What a successful catalog build holds *)

Lemma columnsFromRaw_values (columnsRaw : gmap string value)
    (cols : gmap string Column.t) :
  columnsFromRaw columnsRaw = Done cols ->
  forall colName col,
    cols !! colName = Some col -> col = Column.mk colName false false.
Proof.
  unfold columnsFromRaw. revert cols.
  apply (map_fold_weak_ind
           (fun (r : run (gmap string Column.t)) (m : gmap string value) =>
              forall cols, r = Done cols ->
                forall colName col,
                  cols !! colName = Some col ->
                  col = Column.mk colName false false)).
  - intros cols H. injection H as <-. intros colName col Hc.
    rewrite lookup_empty in Hc. discriminate.
  - intros i x m r Hi IH cols Hr colName col Hc.
    destruct r as [cols0|]; run_simpl; [|discriminate].
    destruct (asObject x) as [colNode|].
    + unfold NewColumnFromNode in Hr.
      destruct (asString (index colNode "name")) as [s|]; simpl in Hr;
        [|discriminate].
      injection Hr as <-.
      destruct (decide (ToLower s = colName)) as [<-|Hne].
      * rewrite lookup_insert_eq in Hc. congruence.
      * rewrite lookup_insert_ne in Hc by assumption.
        exact (IH cols0 eq_refl _ _ Hc).
    + injection Hr as <-. exact (IH cols0 eq_refl _ _ Hc).
Qed.

Lemma NewTableFromNode_fields (node : gmap string value) (m : Manifest.t)
    (t : Table.t) :
  NewTableFromNode node m = Done (t, None) ->
  exists manifestTable n,
    GetTable m (Table.UniqueID t) = (manifestTable, None) /\
    manifestTable !! "name" = Some (VStr n) /\
    Table.Name t = ToLower n /\
    Table.OriginalFilePath t
    = default "" (asString (index manifestTable "original_file_path")) /\
    forall colName col,
      Table.Columns t !! colName = Some col ->
      col = Column.mk colName false false.
Proof.
  unfold NewTableFromNode.
  destruct (asString (index node "unique_id")) as [uid|]; [|discriminate].
  destruct (GetTable m uid) as [mt [e|]] eqn:Eg; [discriminate|].
  destruct (match asObject (index node "columns") with
            | Some columnsRaw => columnsFromRaw columnsRaw
            | None => Done ∅
            end) as [cols|] eqn:Ec; run_simpl; [|discriminate].
  destruct (asString (index mt "name")) as [n|] eqn:En; [|discriminate].
  intros H. injection H as <-. simpl.
  exists mt, n. split; [exact Eg|].
  split; [apply asString_index_Some; exact En|].
  split; [reflexivity|]. split.
  - destruct (asString (index mt "original_file_path")); reflexivity.
  - destruct (asObject (index node "columns")) as [raw|].
    + exact (columnsFromRaw_values raw cols Ec).
    + injection Ec as <-. intros colName col Hc.
      rewrite lookup_empty in Hc. discriminate.
Qed.

Lemma catalogLoop_complete (m : Manifest.t) (nodes : list value) :
  forall (tables : gmap string Table.t) (c : Catalog.t),
    catalogLoop nodes m tables = Done (c, None) ->
    (forall id, is_Some (tables !! id) -> is_Some (Catalog.Tables c !! id)) /\
    (forall node, VObj node ∈ nodes ->
       exists id, asString (index node "unique_id") = Some id /\
                  is_Some (Catalog.Tables c !! id)).
Proof.
  induction nodes as [|n rest IH]; intros tables c Hrun; simpl in Hrun.
  - injection Hrun as <-. split; [auto|].
    intros node Hin. apply elem_of_nil in Hin. contradiction.
  - destruct (asObject n) as [nd|] eqn:En.
    + destruct (NewTableFromNode nd m) as [[tb [e|]]|] eqn:Ent; run_simpl;
        try discriminate.
      destruct (IH _ _ Hrun) as [Hkeep Hnodes]. split.
      * intros id [t Ht]. apply Hkeep.
        destruct (decide (Table.UniqueID tb = id)) as [->|Hne].
        -- rewrite lookup_insert_eq. eauto.
        -- rewrite lookup_insert_ne by assumption. eauto.
      * intros node Hin. apply elem_of_cons in Hin as [Heq | Hin]; [|auto].
        subst n. simpl in En. injection En as <-.
        exists (Table.UniqueID tb). split.
        -- apply (NewTableFromNode_ok _ _ _ Ent).
        -- apply Hkeep. rewrite lookup_insert_eq. eauto.
    + destruct (IH _ _ Hrun) as [Hkeep Hnodes]. split; [exact Hkeep|].
      intros node Hin. apply elem_of_cons in Hin as [Heq | Hin]; [|auto].
      subst n. discriminate.
Qed.

(** When [CatalogFromNodes] succeeds, every node of the list that is an
    object has its table in the catalog under its [unique_id]; every table
    of the catalog is stored under its own identifier, was built from a
    node of the list, carries the lowercased name and the origin path of
    the manifest table it resolves to (the empty path when the manifest
    gives none), and each of its columns is stored under its own name with
    both flags unset. *)
Theorem CatalogFromNodes_success (nodes : list value) (m : Manifest.t)
    (c : Catalog.t) :
  CatalogFromNodes nodes m = Done (c, None) ->
  (forall node, VObj node ∈ nodes ->
     exists id, asString (index node "unique_id") = Some id /\
                is_Some (Catalog.Tables c !! id)) /\
  (forall id t,
      Catalog.Tables c !! id = Some t ->
      Table.UniqueID t = id /\
      (exists node, VObj node ∈ nodes /\
                    NewTableFromNode node m = Done (t, None)) /\
      (exists manifestTable n,
          GetTable m id = (manifestTable, None) /\
          manifestTable !! "name" = Some (VStr n) /\
          Table.Name t = ToLower n /\
          Table.OriginalFilePath t
          = default "" (asString (index manifestTable "original_file_path"))) /\
      (forall colName col,
          Table.Columns t !! colName = Some col ->
          col = Column.mk colName false false)).
Proof.
  unfold CatalogFromNodes. intros Hrun. split.
  - apply (catalogLoop_complete _ _ _ _ Hrun).
  - intros id t Ht.
    destruct (catalogLoop_lookup _ _ _ _ _ _ Hrun Ht)
      as [H | (node & Hin & Hn & Hid)].
    { rewrite lookup_empty in H. discriminate. }
    destruct (NewTableFromNode_fields _ _ _ Hn)
      as (mt & n & Hg & Hname & Hlow & Hpath & Hcols).
    rewrite Hid in Hg.
    split; [exact Hid|]. split; [eauto|]. split; [|exact Hcols].
    exists mt, n. auto.
Qed.


(** ** Where a panic can come from *)

Lemma manifestStep_panics_iff (v : value) (m0 : Manifest.t) :
  manifestStep v m0 = Panic <->
  exists node rt,
    v = VObj node /\
    asString (index node "resource_type") = Some rt /\
    (rt = "source" \/ rt = "model" \/ rt = "seed" \/ rt = "snapshot") /\
    hasNamelessColumn node.
Proof.
  unfold manifestStep, hasNamelessColumn.
  destruct v as [| | | | |node]; simpl;
    try (split; [discriminate | intros (n & rt & H & _); discriminate]).
  destruct (asString (index node "resource_type")) as [rt0|] eqn:Ert; simpl.
  2:{ split; [discriminate | intros (n & rt & Hv & H & _)].
      injection Hv as <-. congruence. }
  assert (Hback : forall n rt,
             VObj node = VObj n ->
             asString (index n "resource_type") = Some rt ->
             n = node /\ rt = rt0).
  { intros n rt H1 H2. injection H1 as <-. rewrite Ert in H2.
    injection H2 as <-. auto. }
  destruct (String.eqb rt0 "source") eqn:E1;
    [|destruct (String.eqb rt0 "model") eqn:E2;
      [|destruct (String.eqb rt0 "seed") eqn:E3;
        [|destruct (String.eqb rt0 "snapshot") eqn:E4;
          [|destruct (String.eqb rt0 "test") eqn:E5]]]].
  1-4: (destruct (normalizeTable node) as [t|] eqn:En; run_simpl;
        [ split; [discriminate|];
          intros (n & rt & Hv & Hrt & _ & Hbad);
          destruct (Hback _ _ Hv Hrt) as [-> ->];
          apply normalizeTable_panics_iff in Hbad; congruence
        | split; [|reflexivity]; intros _;
          apply normalizeTable_panics_iff in En;
          exists node, rt0; split; [reflexivity|]; split; [exact Ert|];
          split; [|exact En];
          match goal with
          | E : String.eqb _ _ = true |- _ => apply String.eqb_eq in E; auto
          end ]).
  all: (split; [discriminate|];
        intros (n & rt & Hv & Hrt & Hkind & _);
        destruct (Hback _ _ Hv Hrt) as [-> ->];
        apply String.eqb_neq in E1, E2, E3, E4;
        destruct Hkind as [H | [H | [H | H]]]; congruence).
Qed.

(** [ManifestFromNodes] panics exactly when a node that declares one of
    the four table kinds has a column object without string [name]; test
    nodes and nodes of any other kind never make it panic. *)
Theorem ManifestFromNodes_panics_iff (manifestNodes : gmap string value) :
  ManifestFromNodes manifestNodes = Panic <->
  exists key node rt,
    manifestNodes !! key = Some (VObj node) /\
    asString (index node "resource_type") = Some rt /\
    (rt = "source" \/ rt = "model" \/ rt = "seed" \/ rt = "snapshot") /\
    hasNamelessColumn node.
Proof.
  unfold ManifestFromNodes.
  assert (Hfold :
            map_fold (fun (_ : string) v (acc : run Manifest.t) =>
                        m ← acc; manifestStep v m)
                     (Done (Manifest.mk ∅ ∅ ∅ ∅ ∅)) manifestNodes = Panic <->
            exists key node rt,
              manifestNodes !! key = Some (VObj node) /\
              asString (index node "resource_type") = Some rt /\
              (rt = "source" \/ rt = "model" \/ rt = "seed" \/ rt = "snapshot") /\
              hasNamelessColumn node).
  { apply (map_fold_weak_ind
             (fun (r : run Manifest.t) (visited : gmap string value) =>
                r = Panic <->
                exists key node rt,
                  visited !! key = Some (VObj node) /\
                  asString (index node "resource_type") = Some rt /\
                  (rt = "source" \/ rt = "model" \/ rt = "seed"
                   \/ rt = "snapshot") /\
                  hasNamelessColumn node)).
    - split; [discriminate|].
      intros (key & node & rt & H & _). rewrite lookup_empty in H. discriminate.
    - intros i x visited r Hi IH.
      destruct r as [m0|]; run_simpl.
      + rewrite manifestStep_panics_iff. split.
        * intros (node & rt & -> & Hrest).
          exists i, node, rt. rewrite lookup_insert_eq. auto.
        * intros (key & node & rt & Hk & Hrest).
          destruct (decide (i = key)) as [->|Hne].
          -- rewrite lookup_insert_eq in Hk. injection Hk as ->.
             exists node, rt. auto.
          -- rewrite lookup_insert_ne in Hk by assumption. exfalso.
             assert (Hp : @Done Manifest.t m0 = Panic)
               by (apply IH; exists key, node, rt; auto).
             discriminate.
      + split; [|reflexivity]. intros _.
        destruct (proj1 IH eq_refl) as (key & node & rt & Hk & Hrest).
        exists key, node, rt. split; [|exact Hrest].
        rewrite lookup_insert_ne; [exact Hk | congruence]. }
  rewrite <- Hfold.
  destruct (map_fold _ _ manifestNodes); run_simpl;
    split; first [discriminate | reflexivity].
Qed.

Lemma catalogLoop_panics (m : Manifest.t) (nodes : list value) :
  forall tables : gmap string Table.t,
    catalogLoop nodes m tables = Panic ->
    exists node, VObj node ∈ nodes /\ NewTableFromNode node m = Panic.
Proof.
  induction nodes as [|n rest IH]; intros tables H; simpl in H; [discriminate|].
  assert (Hrest : forall tb, catalogLoop rest m tb = Panic ->
            exists node, VObj node ∈ n :: rest /\
                         NewTableFromNode node m = Panic).
  { intros tb Hp. destruct (IH _ Hp) as (node & Hin & Hn).
    exists node. split; [apply elem_of_cons; auto | exact Hn]. }
  destruct n as [| | | | |nd]; simpl in H; eauto.
  destruct (NewTableFromNode nd m) as [[t [e|]]|] eqn:En; run_simpl.
  - discriminate.
  - eauto.
  - exists nd. split; [apply elem_of_cons; auto | exact En].
Qed.

(** A run of [loadFiles] panics only because a column object has no
    string [name], either in a table node of the manifest document or in a
    node of the catalog document: the name that [NewTableFromNode] asserts
    on the resolved manifest table is always there, [normalizeTable] put
    it. [doCompute] panics exactly when [loadFiles] does. *)
Theorem panics_come_from_nameless_columns
    (projectDir runArtifactsDir output : string) (covType : CoverageType)
    (modelPathFilter : list string) :
  (doCompute projectDir runArtifactsDir output covType modelPathFilter = Panic
   <-> loadFiles projectDir runArtifactsDir = Panic) /\
  (loadFiles projectDir runArtifactsDir = Panic ->
   (exists data manifestJSON key node,
       ReadFile (manifestPathOf projectDir runArtifactsDir) = (data, None) /\
       Unmarshal data = (manifestJSON, None) /\
       mergedNodes manifestJSON !! key = Some (VObj node) /\
       hasNamelessColumn node) \/
   (exists data catalogJSON node,
       ReadFile (catalogPathOf projectDir runArtifactsDir) = (data, None) /\
       Unmarshal data = (catalogJSON, None) /\
       VObj node ∈ catalogNodesOf catalogJSON /\
       hasNamelessColumn node)).
Proof.
  split.
  - unfold doCompute.
    destruct (loadFiles projectDir runArtifactsDir) as [[c [e|]]|];
      unfold mbind, run_bind.
    + split; discriminate.
    + split; [|discriminate]. intros H.
      repeat case_match; discriminate.
    + split; reflexivity.
  - unfold loadFiles.
    destruct (loadManifest projectDir runArtifactsDir) as [[m [e|]]|] eqn:Em;
      run_simpl.
    + discriminate.
    + destruct (loadCatalog projectDir runArtifactsDir m) as [[c [e|]]|] eqn:Ec;
        run_simpl; try discriminate.
      intros _. right. unfold loadCatalog in Ec.
      destruct (IsNotExist (catalogPathOf projectDir runArtifactsDir));
        [discriminate|].
      destruct (ReadFile (catalogPathOf projectDir runArtifactsDir))
        as [data [e|]] eqn:Er; [discriminate|].
      destruct (Unmarshal data) as [catalogJSON [e|]] eqn:Eu; [discriminate|].
      destruct (catalogLoop_panics _ _ _ Ec) as (node & Hin & Hn).
      exists data, catalogJSON, node. split; [reflexivity|].
      split; [exact Eu|]. split; [exact Hin|].
      apply NewTableFromNode_panics_iff in Hn
        as (uid & mt & _ & Hg & [Hcol | Hname]); [exact Hcol|].
      exfalso. unfold loadManifest in Em.
      destruct (IsNotExist (manifestPathOf projectDir runArtifactsDir));
        [discriminate|].
      destruct (ReadFile (manifestPathOf projectDir runArtifactsDir))
        as [mdata [e|]]; [discriminate|].
      destruct (Unmarshal mdata) as [manifestJSON [e|]]; [discriminate|].
      destruct (ManifestFromNodes_partitions _ _ _ Em) as (_ & _ & Hnamed).
      destruct (Hnamed _ _ Hg) as (s & Hs). exact (Hname s Hs).
    + intros _. left. unfold loadManifest in Em.
      destruct (IsNotExist (manifestPathOf projectDir runArtifactsDir));
        [discriminate|].
      destruct (ReadFile (manifestPathOf projectDir runArtifactsDir))
        as [data [e|]] eqn:Er; [discriminate|].
      destruct (Unmarshal data) as [manifestJSON [e|]] eqn:Eu; [discriminate|].
      apply ManifestFromNodes_panics_iff in Em
        as (key & node & rt & Hk & _ & _ & Hbad).
      exists data, manifestJSON, key, node. auto.
Qed.


(** ** The annotation pass, again *)

Lemma Table_eq (t1 t2 : Table.t) :
  Table.UniqueID t1 = Table.UniqueID t2 ->
  Table.Name t1 = Table.Name t2 ->
  Table.OriginalFilePath t1 = Table.OriginalFilePath t2 ->
  (forall colName, Table.Columns t1 !! colName = Table.Columns t2 !! colName) ->
  t1 = t2.
Proof.
  destruct t1, t2. simpl. intros -> -> -> H. f_equal. apply map_eq. exact H.
Qed.

(** The annotation pass keeps the identifier, the name and the origin
    path of every table and the name of every column, sets both flags from
    the manifest alone, whatever they were, and so changes nothing when it
    is run a second time. *)
Theorem annotateCatalog_fields (m : Manifest.t) (c : Catalog.t) :
  (forall id t,
      Catalog.Tables (annotateCatalog m c) !! id = Some t ->
      exists t0,
        Catalog.Tables c !! id = Some t0 /\
        Table.UniqueID t = Table.UniqueID t0 /\
        Table.Name t = Table.Name t0 /\
        Table.OriginalFilePath t = Table.OriginalFilePath t0 /\
        forall colName col,
          Table.Columns t !! colName = Some col ->
          exists col0,
            Table.Columns t0 !! colName = Some col0 /\
            col = Column.mk (Column.Name col0)
                    (IsValidDoc (columnDescription m id colName))
                    (IsValidTest (testsForColumn m id colName))) /\
  annotateCatalog m (annotateCatalog m c) = annotateCatalog m c.
Proof.
  split.
  - intros id t Ht. rewrite annotateCatalog_lookup in Ht.
    destruct (Catalog.Tables c !! id) as [t0|]; [|discriminate].
    injection Ht as <-. exists t0. split; [reflexivity|].
    repeat (split; [reflexivity|]).
    intros colName col Hc. rewrite annotateTable_lookup in Hc.
    destruct (Table.Columns t0 !! colName) as [col0|]; [|discriminate].
    injection Hc as <-. exists col0. split; reflexivity.
  - apply Catalog_eq. intros id. rewrite !annotateCatalog_lookup.
    destruct (Catalog.Tables c !! id) as [t0|]; [|reflexivity].
    simpl. f_equal. apply Table_eq; try reflexivity.
    intros colName. rewrite !annotateTable_lookup.
    destruct (Table.Columns t0 !! colName); reflexivity.
Qed.

(** In the catalog that [loadFiles] returns every table is stored under
    its own identifier and every column under its own name, so that the
    names of the report are the keys of the catalog. *)
Theorem loadFiles_keys (projectDir runArtifactsDir : string)
    (catalog : Catalog.t) :
  loadFiles projectDir runArtifactsDir = Done (catalog, None) ->
  forall id t,
    Catalog.Tables catalog !! id = Some t ->
    Table.UniqueID t = id /\
    forall colName col,
      Table.Columns t !! colName = Some col -> Column.Name col = colName.
Proof.
  intros Hload id t Ht.
  destruct (loadFiles_inv _ _ _ Hload) as (m & c0 & _ & Hc & ->).
  destruct (loadCatalog_inv _ _ _ _ Hc) as (data & doc & _ & _ & Hb).
  destruct (proj1 (annotateCatalog_fields m c0) _ _ Ht)
    as (t0 & Ht0 & Hid & _ & _ & Hcols).
  destruct (proj2 (CatalogFromNodes_success _ _ _ Hb) _ _ Ht0)
    as (Hid0 & _ & _ & Hcols0).
  split; [congruence|].
  intros colName col Hcol.
  destruct (Hcols _ _ Hcol) as (col0 & Hcol0 & ->).
  rewrite (Hcols0 _ _ Hcol0). reflexivity.
Qed.

(** ** Errors of the load and of the filter *)

(** A missing [manifest.json], and with a loaded manifest a missing
    [catalog.json], is reported with the path that was probed; every error
    of [loadFiles] comes with the empty catalog; and [doCompute] hands the
    error of the load on unchanged, whatever the kind and the filter. *)
Theorem load_errors (projectDir runArtifactsDir output : string)
    (covType : CoverageType) (modelPathFilter : list string) :
  (IsNotExist (manifestPathOf projectDir runArtifactsDir) = true ->
   loadFiles projectDir runArtifactsDir
   = Done (Catalog.zero,
           Some (ErrManifestMissing (manifestPathOf projectDir runArtifactsDir)))) /\
  (forall m,
      loadManifest projectDir runArtifactsDir = Done (m, None) ->
      IsNotExist (catalogPathOf projectDir runArtifactsDir) = true ->
      loadFiles projectDir runArtifactsDir
      = Done (Catalog.zero,
              Some (ErrCatalogMissing (catalogPathOf projectDir runArtifactsDir)))) /\
  (forall c e,
      loadFiles projectDir runArtifactsDir = Done (c, Some e) ->
      c = Catalog.zero /\
      doCompute projectDir runArtifactsDir output covType modelPathFilter
      = Done (Some e)).
Proof.
  split; [|split].
  - intros H. unfold loadFiles, loadManifest. rewrite H. reflexivity.
  - intros m Hm H. unfold loadFiles. rewrite Hm.
    unfold mbind, run_bind, loadCatalog. rewrite H. reflexivity.
  - intros c e H. split.
    + unfold loadFiles in H.
      destruct (loadManifest projectDir runArtifactsDir) as [[m [e1|]]|];
        unfold mbind, run_bind in H; try discriminate.
      * injection H as <- _. reflexivity.
      * destruct (loadCatalog projectDir runArtifactsDir m) as [[c0 [e2|]]|];
          try discriminate.
        injection H as <- _. reflexivity.
    + unfold doCompute. rewrite H. reflexivity.
Qed.

(** With a non-empty list of prefixes and a loaded catalog, [doCompute]
    fails with the error of the empty filter result exactly when no table
    of the catalog, if there is any, has an origin path that starts with
    one of the prefixes; otherwise its outcome is that of writing the
    report of the filtered catalog. *)
Theorem doCompute_filtered (projectDir runArtifactsDir output : string)
    (covType : CoverageType) (modelPathFilter : list string)
    (catalog : Catalog.t) :
  loadFiles projectDir runArtifactsDir = Done (catalog, None) ->
  modelPathFilter <> [] ->
  (doCompute projectDir runArtifactsDir output covType modelPathFilter
   = Done (Some ErrNoTablesAfterFilter) <->
   forall id t,
     Catalog.Tables catalog !! id = Some t ->
     matchesFilter (ToSlash (Table.OriginalFilePath t)) modelPathFilter
     = false) /\
  (forall id t,
      Catalog.Tables catalog !! id = Some t ->
      matchesFilter (ToSlash (Table.OriginalFilePath t)) modelPathFilter
      = true ->
      doCompute projectDir runArtifactsDir output covType modelPathFilter
      = Done (writeCoverageReport
                (computeJSONReport (FilterTables catalog modelPathFilter)
                   covType) output)).
Proof.
  intros Hload Hne.
  assert (Hrun :
            doCompute projectDir runArtifactsDir output covType modelPathFilter
            = if Z.of_nat (size (Catalog.Tables
                                   (FilterTables catalog modelPathFilter))) =? 0
              then Done (Some ErrNoTablesAfterFilter)
              else Done (writeCoverageReport
                           (computeJSONReport
                              (FilterTables catalog modelPathFilter) covType)
                           output)).
  { unfold doCompute. rewrite Hload. unfold mbind, run_bind.
    destruct modelPathFilter as [|f fs]; [congruence|]. reflexivity. }
  assert (Hempty :
            (Z.of_nat (size (Catalog.Tables
                               (FilterTables catalog modelPathFilter))) =? 0)
            = true <->
            forall id t,
              Catalog.Tables catalog !! id = Some t ->
              matchesFilter (ToSlash (Table.OriginalFilePath t)) modelPathFilter
              = false).
  { rewrite Z.eqb_eq. split.
    - intros Hz id t Ht.
      destruct (matchesFilter (ToSlash (Table.OriginalFilePath t))
                  modelPathFilter) eqn:E; [|reflexivity].
      assert (Hin : Catalog.Tables (FilterTables catalog modelPathFilter) !! id
                    = Some t) by (apply FilterTables_lookup; auto).
      assert (Hs : size (Catalog.Tables (FilterTables catalog modelPathFilter))
                   = 0%nat) by lia.
      apply map_size_empty_iff in Hs. rewrite Hs, lookup_empty in Hin.
      discriminate.
    - intros Hnone.
      assert (Hs : Catalog.Tables (FilterTables catalog modelPathFilter) = ∅).
      { apply map_eq. intros id. rewrite FilterTables_lookup_total, lookup_empty.
        destruct (Catalog.Tables catalog !! id) as [t|] eqn:Et; [|reflexivity].
        rewrite (Hnone _ _ Et). reflexivity. }
      rewrite Hs, map_size_empty. reflexivity. }
  split.
  - rewrite Hrun, <- Hempty.
    destruct (Z.of_nat (size (Catalog.Tables
                                (FilterTables catalog modelPathFilter))) =? 0).
    + split; reflexivity.
    + split; [|discriminate]. intros H. injection H as H.
      exfalso. exact (writeCoverageReport_error _ _ H).
  - intros id t Ht Hmatch. rewrite Hrun.
    destruct (Z.of_nat (size (Catalog.Tables
                                (FilterTables catalog modelPathFilter))) =? 0)
      eqn:E; [|reflexivity].
    rewrite (proj1 Hempty eq_refl _ _ Ht) in Hmatch. discriminate.
Qed.

End Host.

(** ** Concrete runs

    The functions on a slash host ([hostSep]) and on a backslash host
    ([backslash]), with ASCII lowercasing and the sample directory. *)

Local Abbreviation hostSep := ("/"%char).
Local Abbreviation backslash := (Ascii.ascii_of_nat 92).

Local Abbreviation hostLoadManifest mj cj :=
  (loadManifest hostSep asciiToLower slashJoin hostIsNotExist hostReadFile
     (hostUnmarshal mj cj)).

Local Abbreviation hostLoadCatalog mj cj :=
  (loadCatalog asciiToLower slashJoin hostIsNotExist hostReadFile
     (hostUnmarshal mj cj)).

Local Abbreviation hostLoadFiles mj cj :=
  (loadFiles hostSep asciiToLower slashJoin hostIsNotExist hostReadFile
     (hostUnmarshal mj cj)).

Local Abbreviation hostDoCompute mj cj :=
  (doCompute hostSep asciiToLower slashJoin hostIsNotExist hostReadFile
     (hostUnmarshal mj cj) hostMarshalIndent hostWriteFile).

(** The end-to-end scenario: one table, [id] documented, [email]
    tested; each kind covers one column of two. *)
Example users_reports :
  hostLoadFiles usersManifestJSON usersCatalogJSON "." "target"
  = Done (usersLoadedCatalog, None) /\
  (let r := computeJSONReport usersLoadedCatalog CoverageTypeDoc in
   (JSONReport.Covered r, JSONReport.Total r, JSONReport.Coverage r)
   = (1, 2, 0.5%float)) /\
  (let r := computeJSONReport usersLoadedCatalog CoverageTypeTest in
   (JSONReport.Covered r, JSONReport.Total r, JSONReport.Coverage r)
   = (1, 2, 0.5%float)).
Proof. repeat split; vm_compute; reflexivity. Qed.

(** C1: on a catalog node without columns the table report of
    [computeJSONReport] has [total = 0] and a coverage that is NaN: it is
    not [0] and is not between [0] and [1], while the global coverage of
    the same report, guarded by [globalTotal > 0], is [0]; the report is
    then refused by the JSON encoder. *)
Theorem zero_column_table_coverage_is_nan :
  hostLoadFiles usersManifestJSON emptyCatalogJSON "." "target"
  = Done (zeroColumnCatalog, None) /\
  (let report := computeJSONReport zeroColumnCatalog CoverageTypeDoc in
   JSONReport.Tables report
   = [TableReport.mk "analytics.users" 0 0 PrimFloat.nan []] /\
   JSONReport.Coverage report = 0%float) /\
  PrimFloat.eqb PrimFloat.nan 0 = false /\
  PrimFloat.leb 0 PrimFloat.nan = false /\
  PrimFloat.leb PrimFloat.nan 1 = false /\
  hostDoCompute usersManifestJSON emptyCatalogJSON "." "target"
    "coverage.json" CoverageTypeDoc []
  = Done (Some (ErrExternal "json: unsupported value: NaN")).
Proof. repeat split; vm_compute; reflexivity. Qed.

(** C4: an identifier declared as a source in [sources] and as a model
    in [nodes] under one key reaches a single partition, is resolved
    without error and becomes a table; declared under two keys it reaches
    two partitions, [GetTable] reports the duplicate, and the catalog
    build reports it as not found in the manifest. *)
Theorem twice_declared_identifier :
  (exists m,
      hostLoadManifest twiceManifestJSON twiceCatalogJSON "." "target"
      = Done (m, None) /\
      Manifest.Sources m !! "shop.users" = None /\
      is_Some (Manifest.Models m !! "shop.users") /\
      (GetTable m "shop.users").2 = None) /\
  hostLoadFiles twiceManifestJSON twiceCatalogJSON "." "target"
  = Done (twiceLoadedCatalog, None) /\
  (exists m,
      hostLoadManifest twiceKeyedManifestJSON twiceCatalogJSON "." "target"
      = Done (m, None) /\
      GetTable m "shop.users" = (∅, Some (ErrDuplicateID "shop.users"))) /\
  hostLoadFiles twiceKeyedManifestJSON twiceCatalogJSON "." "target"
  = Done (Catalog.zero, Some (ErrNotInManifest "shop.users")).
Proof.
  split; [|split; [|split]].
  - destruct (hostLoadManifest twiceManifestJSON twiceCatalogJSON "." "target")
      as [[m [e|]]|] eqn:Em; try (vm_compute in Em; discriminate).
    exists m. split; [reflexivity|].
    vm_compute in Em. injection Em as <-.
    split; [|split]; [reflexivity | eexists; reflexivity | reflexivity].
  - vm_compute. reflexivity.
  - destruct (hostLoadManifest twiceKeyedManifestJSON twiceCatalogJSON
                "." "target")
      as [[m [e|]]|] eqn:Em; try (vm_compute in Em; discriminate).
    exists m. split; [reflexivity|].
    vm_compute in Em. injection Em as <-. reflexivity.
  - vm_compute. reflexivity.
Qed.

(** C5 as stated fails: an entry of the node list that is not a JSON
    object has no [unique_id], yet it is skipped and the catalog of the
    other entries is returned without error; and when an earlier entry
    has a column without [name], the build panics before the node without
    [unique_id] is reached, so that no error value is returned. *)
Lemma CatalogFromNodes_returns_without_error :
  (uniqueIDOf (VStr "oops") = None /\
   exists c,
     CatalogFromNodes asciiToLower
       [VObj usersCatalogNode; VStr "oops"] smallManifest
     = Done (c, None) /\
     is_Some (Catalog.Tables c !! "model.shop.users")) /\
  (uniqueIDOf (VObj anonymousCatalogNode) = None /\
   CatalogFromNodes asciiToLower
     [VObj namelessColumnNode; VObj anonymousCatalogNode] smallManifest
   = Panic).
Proof.
  split; split; try reflexivity.
  eexists. split; [vm_compute; reflexivity | eexists; reflexivity].
Qed.

(** A node without [unique_id] ahead of a node that would panic, after
    an entry that is not an object: the error with the empty catalog is
    returned, as it is for the list without that entry. *)
Lemma CatalogFromNodes_aborts_on_malformed_node_witness :
  (exists e,
      CatalogFromNodes asciiToLower
        [VStr "oops"; VObj anonymousCatalogNode; VObj namelessColumnNode]
        smallManifest
      = Done (Catalog.zero, Some e)) /\
  CatalogFromNodes asciiToLower
    [VStr "oops"; VObj anonymousCatalogNode; VObj namelessColumnNode]
    smallManifest
  = CatalogFromNodes asciiToLower
      [VObj anonymousCatalogNode; VObj namelessColumnNode] smallManifest.
Proof.
  destruct (CatalogFromNodes_aborts_on_malformed_node asciiToLower
              [VStr "oops"; VObj anonymousCatalogNode; VObj namelessColumnNode]
              smallManifest) as [Hbad Hskip].
  split; [|exact Hskip].
  destruct (Hbad anonymousCatalogNode) as [_ Herr].
  - apply elem_of_cons. right. apply elem_of_cons. left. reflexivity.
  - left. reflexivity.
  - apply (Herr [VStr "oops"] [VObj namelessColumnNode]); [reflexivity|].
    intros n Hn. apply elem_of_cons in Hn as [Hn | Hn]; [discriminate|].
    apply elem_of_nil in Hn. contradiction.
Defined.

(** A column node without fields, a manifest table with such a column,
    and a catalog node resolving to a manifest table without [name]. *)
Lemma unchecked_name_assertions_panic_witness :
  NewColumnFromNode asciiToLower ∅ = Panic /\
  normalizeTable hostSep asciiToLower namelessColumnTable = Panic /\
  NewTableFromNode asciiToLower usersCatalogNode namelessManifest = Panic.
Proof.
  destruct (unchecked_name_assertions_panic hostSep asciiToLower)
    as (Hcol & Hnorm & Htable).
  split; [|split].
  - apply Hcol. intros s. rewrite lookup_empty. discriminate.
  - apply (Hnorm namelessColumnTable (object [("id", VObj ∅)]) "id" ∅).
    + reflexivity.
    + reflexivity.
    + intros s. rewrite lookup_empty. discriminate.
  - apply (Htable usersCatalogNode namelessManifest "model.shop.users" ∅).
    + reflexivity.
    + reflexivity.
    + intros s. rewrite lookup_empty. discriminate.
Defined.

(** On a backslash host the prefix [models/marts] keeps the table
    recorded under [models\marts] and only that one; on a slash host the
    recorded backslashes are not separators and nothing is kept. *)
Example FilterTables_marts :
  FilterTables backslash pathsCatalog ["models/marts"]
  = Catalog.mk (<["model.shop.a" := martsTable]> ∅) /\
  FilterTables hostSep pathsCatalog ["models/marts"] = Catalog.mk ∅.
Proof. split; vm_compute; reflexivity. Qed.

(** The two tables recorded on a backslash host under the prefix
    [models/marts], and two prefixes in either order. *)
Lemma FilterTables_retains_iff_prefix_witness :
  Catalog.Tables (FilterTables backslash pathsCatalog ["models/marts"])
    !! "model.shop.a" = Some martsTable /\
  Catalog.Tables (FilterTables backslash pathsCatalog ["models/marts"])
    !! "model.shop.b" = None /\
  FilterTables backslash pathsCatalog ["models/staging"; "models/marts"]
  = FilterTables backslash pathsCatalog ["models/marts"; "models/staging"].
Proof.
  destruct (FilterTables_retains_iff_prefix backslash pathsCatalog
              ["models/marts"]) as (Hiff & _ & _).
  destruct (FilterTables_retains_iff_prefix backslash pathsCatalog
              ["models/marts"; "models/staging"]) as (_ & _ & Hperm).
  split; [|split].
  - apply Hiff. split; [reflexivity|].
    exists "models/marts". split; [apply elem_of_cons; auto|].
    exists "/a.sql". reflexivity.
  - destruct (Catalog.Tables
                (FilterTables backslash pathsCatalog ["models/marts"])
                !! "model.shop.b") as [t|] eqn:Et; [|reflexivity].
    apply Hiff in Et as (Ht & f & Hf & rest & Hrest).
    apply list_elem_of_singleton in Hf. subst f.
    vm_compute in Ht. injection Ht as <-.
    vm_compute in Hrest. discriminate.
  - apply Hperm. apply Permutation_swap.
Defined.

(** A filter that matches no table of the [users] project, and a
    project without tables computed without a filter. *)
Lemma doCompute_empty_filter_result_witness :
  hostDoCompute usersManifestJSON usersCatalogJSON "." "target"
    "coverage.json" CoverageTypeDoc ["models/none"]
  = Done (Some ErrNoTablesAfterFilter) /\
  hostDoCompute usersManifestJSON noNodesCatalogJSON "." "target"
    "coverage.json" CoverageTypeDoc []
  = Done None.
Proof.
  split.
  - apply (proj1 (doCompute_empty_filter_result hostSep asciiToLower slashJoin
                    hostIsNotExist hostReadFile
                    (hostUnmarshal usersManifestJSON usersCatalogJSON)
                    hostMarshalIndent hostWriteFile
                    "." "target" "coverage.json" CoverageTypeDoc
                    ["models/none"] usersLoadedCatalog
                    ltac:(vm_compute; reflexivity))).
    + discriminate.
    + vm_compute. reflexivity.
  - apply (proj2 (doCompute_empty_filter_result hostSep asciiToLower slashJoin
                    hostIsNotExist hostReadFile
                    (hostUnmarshal usersManifestJSON noNodesCatalogJSON)
                    hostMarshalIndent hostWriteFile
                    "." "target" "coverage.json" CoverageTypeDoc
                    [] (Catalog.mk ∅)
                    ltac:(vm_compute; reflexivity))).
    + reflexivity.
    + vm_compute. reflexivity.
Defined.


(** The [users] project: the columns of the reconciled table are those
    a catalog node declares. *)
Lemma reconciled_columns_are_catalog_columns_witness :
  exists c,
    hostLoadFiles usersManifestJSON usersCatalogJSON "." "target"
    = Done (c, None) /\
    forall t,
      Catalog.Tables c !! "model.shop.users" = Some t ->
      exists node,
        asString (index node "unique_id") = Some "model.shop.users" /\
        forall colName,
          colName ∈ dom (Table.Columns t)
          <-> declaresColumn asciiToLower node colName.
Proof.
  destruct (hostLoadManifest usersManifestJSON usersCatalogJSON "." "target")
    as [[m [e|]]|] eqn:Em; try (vm_compute in Em; discriminate).
  destruct (hostLoadCatalog usersManifestJSON usersCatalogJSON "." "target" m)
    as [[c0 [e|]]|] eqn:Ec;
    try (vm_compute in Em; injection Em as <-; vm_compute in Ec; discriminate).
  destruct (reconciled_columns_are_catalog_columns hostSep asciiToLower
              slashJoin hostIsNotExist hostReadFile
              (hostUnmarshal usersManifestJSON usersCatalogJSON)
              "." "target" m c0 Em Ec) as (Hload & _ & Htables).
  exists (annotateCatalog m c0). split; [exact Hload|].
  intros t Ht.
  destruct (Htables _ _ Ht) as (t0 & data & doc & node & _ & _ & _ & _ & _ & Hid & Hcols).
  exists node. auto.
Defined.

(** A [relationships] test depending on [modelA] then [modelB] is
    attributed to [modelB], and nothing is recorded under [modelA]. *)
Lemma test_attributed_to_last_or_first_witness :
  testKey asciiToLower relationshipsTestNode = Some ("modelB", "user_id") /\
  exists m',
    manifestStep hostSep asciiToLower (VObj relationshipsTestNode) emptyManifest
    = Done m' /\
    testsForColumn m' "modelB" "user_id" = [VObj relationshipsTestNode] /\
    testsForColumn m' "modelA" "user_id" = [].
Proof.
  destruct (test_attributed_to_last_or_first hostSep asciiToLower emptyManifest
              relationshipsTestNode
              (object [("name", VStr "relationships")])
              (object [("nodes", VArr [VStr "modelA"; VStr "modelB"])])
              [VStr "modelA"; VStr "modelB"] "modelB")
    as (_ & Hattr).
  - reflexivity.
  - reflexivity.
  - reflexivity.
  - reflexivity.
  - discriminate.
  - reflexivity.
  - destruct Hattr as (Hkey & m' & Hstep & Hhere & Helse).
    + vm_compute. discriminate.
    + split; [exact Hkey|]. exists m'. split; [exact Hstep|]. split.
      * exact Hhere.
      * apply (Helse "modelA" "user_id"). vm_compute. discriminate.
Defined.

(** A test whose column is only given by [kwargs.arg], and a test
    without any column. *)
Lemma test_column_resolution_witness :
  (resolveColumnName argTestNode
     (object [("name", VStr "not_null");
              ("kwargs", VObj (object [("arg", VStr "user_id")]))])
   = "user_id" /\
   exists tableID, testKey asciiToLower argTestNode = Some (tableID, "user_id")) /\
  (testKey asciiToLower columnlessTestNode = None /\
   manifestStep hostSep asciiToLower (VObj columnlessTestNode) smallManifest
   = Done smallManifest).
Proof.
  split.
  - destruct (test_column_resolution hostSep asciiToLower emptyManifest
                argTestNode
                (object [("name", VStr "not_null");
                         ("kwargs", VObj (object [("arg", VStr "user_id")]))])
                (object [("nodes", VArr [VStr "modelA"])])
                [VStr "modelA"])
      as (Hres & Hsome & _);
      [reflexivity | reflexivity | reflexivity | reflexivity | discriminate |].
    split; [exact Hres|]. apply Hsome. vm_compute. discriminate.
  - destruct (test_column_resolution hostSep asciiToLower smallManifest
                columnlessTestNode
                (object [("name", VStr "not_null")])
                (object [("nodes", VArr [VStr "modelA"])])
                [VStr "modelA"])
      as (_ & _ & Hnone);
      [reflexivity | reflexivity | reflexivity | reflexivity | discriminate |].
    apply Hnone. reflexivity.
Defined.

(** ** Concrete runs of the further properties *)

(** The global coverage of the column-less project is [0]. *)
Lemma computeJSONReport_sums_witness :
  JSONReport.Coverage (computeJSONReport zeroColumnCatalog CoverageTypeDoc)
  = 0%float /\
  JSONReport.Covered (computeJSONReport usersLoadedCatalog CoverageTypeDoc)
  = sumZ (TableReport.Covered
            <$> JSONReport.Tables
                  (computeJSONReport usersLoadedCatalog CoverageTypeDoc)).
Proof.
  split.
  - destruct (computeJSONReport_sums zeroColumnCatalog CoverageTypeDoc)
      as (_ & _ & _ & _ & _ & _ & Hzero).
    apply Hzero. reflexivity.
  - destruct (computeJSONReport_sums usersLoadedCatalog CoverageTypeDoc)
      as (_ & _ & _ & Hsum & _).
    exact Hsum.
Defined.

(** The [users] project under the kind [coverage]. *)
Lemma unknown_kind_covers_nothing_witness :
  JSONReport.Covered (computeJSONReport usersLoadedCatalog "coverage") = 0.
Proof.
  destruct (unknown_kind_covers_nothing usersLoadedCatalog "coverage")
    as [Hzero _].
  - unfold CoverageTypeDoc. discriminate.
  - unfold CoverageTypeTest. discriminate.
  - exact Hzero.
Defined.

(** A path recorded on a backslash host. *)
Lemma ToSlash_normal_form_witness :
  ToSlash backslash (ToSlash backslash "models\marts\a.sql")
  = ToSlash backslash "models\marts\a.sql" /\
  forall c,
    In c (String.list_ascii_of_string (ToSlash backslash "models\marts\a.sql")) ->
    c <> backslash.
Proof.
  destruct (ToSlash_normal_form backslash "models\marts\a.sql")
    as (Hidem & _ & Hclean).
  split; [exact Hidem|]. apply Hclean. vm_compute. discriminate.
Defined.

(** A list of prefixes that holds the empty prefix. *)
Lemma FilterTables_degenerate_witness :
  FilterTables backslash pathsCatalog ["models/none"; ""] = pathsCatalog.
Proof.
  apply (FilterTables_degenerate backslash pathsCatalog ["models/none"; ""]).
  apply elem_of_cons. right. apply elem_of_cons. left. reflexivity.
Defined.

(** The manifest table with a column without [name]. *)
Lemma normalizeTable_panics_iff_witness :
  normalizeTable hostSep asciiToLower namelessColumnTable = Panic.
Proof.
  apply normalizeTable_panics_iff.
  exists (object [("id", VObj ∅)]), "id", ∅.
  split; [reflexivity|]. split; [reflexivity|].
  intros s. rewrite lookup_empty. discriminate.
Defined.

(** The model [users] of schema [analytics]. *)
Lemma normalizeTable_result_witness :
  exists t',
    normalizeTable hostSep asciiToLower usersModelNode = Done t' /\
    t' !! "name" = Some (VStr "analytics.users") /\
    t' !! "unique_id" = Some (VStr "model.shop.users").
Proof.
  destruct (normalizeTable hostSep asciiToLower usersModelNode) as [t'|] eqn:E;
    [|vm_compute in E; discriminate].
  exists t'. split; [reflexivity|].
  destruct (normalizeTable_result hostSep asciiToLower usersModelNode t' E)
    as (Hname & _ & Hother & _).
  split; [exact Hname|].
  rewrite Hother by discriminate. reflexivity.
Defined.

(** The catalog node with a column without [name], resolved. *)
Lemma NewTableFromNode_panics_iff_witness :
  NewTableFromNode asciiToLower namelessColumnNode smallManifest = Panic.
Proof.
  apply NewTableFromNode_panics_iff.
  exists "model.shop.users", (object [("name", VStr "analytics.users")]).
  split; [reflexivity|]. split; [reflexivity|].
  left. exists (object [("id", VObj ∅)]), "id", ∅.
  split; [reflexivity|]. split; [reflexivity|].
  intros s. rewrite lookup_empty. discriminate.
Defined.

(** The index of the [users] manifest document. *)
Lemma ManifestFromNodes_partitions_witness :
  exists m,
    ManifestFromNodes hostSep asciiToLower (mergedNodes usersManifestJSON)
    = Done (m, None) /\
    forall t, GetTable m "model.shop.users" = (t, None) ->
              exists s, t !! "name" = Some (VStr s).
Proof.
  destruct (ManifestFromNodes hostSep asciiToLower
              (mergedNodes usersManifestJSON)) as [[m e]|] eqn:E;
    [|vm_compute in E; discriminate].
  destruct (ManifestFromNodes_partitions hostSep asciiToLower _ m e E)
    as (-> & _ & Hnamed).
  exists m. split; [reflexivity|]. intros t. apply Hnamed.
Defined.

Lemma ManifestFromNodes_tests_witness :
  exists m,
    ManifestFromNodes hostSep asciiToLower (mergedNodes usersManifestJSON)
    = Done (m, None) /\
    VObj emailTestNode ∈ testsForColumn m "model.shop.users" "email".
Proof.
  destruct (ManifestFromNodes hostSep asciiToLower
              (mergedNodes usersManifestJSON)) as [[m e]|] eqn:E;
    [|vm_compute in E; discriminate].
  destruct (ManifestFromNodes_partitions hostSep asciiToLower _ m e E)
    as (-> & _).
  exists m. split; [reflexivity|].
  apply (ManifestFromNodes_tests hostSep asciiToLower _ m None E).
  exists "test.shop.not_null_users_email", emailTestNode.
  repeat split; reflexivity.
Defined.

(** The node of the [users] catalog document. *)
Lemma catalogNodesOf_elem_witness :
  VObj usersCatalogNode ∈ catalogNodesOf usersCatalogJSON.
Proof.
  apply catalogNodesOf_elem.
  exists "nodes", (object [("model.shop.users", VObj usersCatalogNode)]),
    "model.shop.users".
  repeat split; auto.
Defined.

Lemma CatalogFromNodes_success_witness :
  exists c,
    CatalogFromNodes asciiToLower [VObj usersCatalogNode] smallManifest
    = Done (c, None) /\
    is_Some (Catalog.Tables c !! "model.shop.users").
Proof.
  destruct (CatalogFromNodes asciiToLower [VObj usersCatalogNode] smallManifest)
    as [[c [e|]]|] eqn:E; try (vm_compute in E; discriminate).
  exists c. split; [reflexivity|].
  destruct (CatalogFromNodes_success asciiToLower _ _ c E) as [Hall _].
  destruct (Hall usersCatalogNode) as (id & Hid & Hsome).
  - apply elem_of_cons. left. reflexivity.
  - vm_compute in Hid. injection Hid as <-. exact Hsome.
Defined.

(** The manifest document whose model has a column without [name]. *)
Lemma ManifestFromNodes_panics_iff_witness :
  ManifestFromNodes hostSep asciiToLower (mergedNodes namelessManifestJSON)
  = Panic.
Proof.
  apply ManifestFromNodes_panics_iff.
  exists "model.shop.users", namelessColumnModelNode, "model".
  split; [reflexivity|]. split; [reflexivity|]. split; [auto|].
  exists (object [("id", VObj ∅)]), "id", ∅.
  split; [reflexivity|]. split; [reflexivity|].
  intros s. rewrite lookup_empty. discriminate.
Defined.

Lemma panics_come_from_nameless_columns_witness :
  hostDoCompute namelessManifestJSON usersCatalogJSON "." "target"
    "coverage.json" CoverageTypeDoc []
  = Panic.
Proof.
  apply (panics_come_from_nameless_columns hostSep asciiToLower slashJoin
           hostIsNotExist hostReadFile
           (hostUnmarshal namelessManifestJSON usersCatalogJSON)
           hostMarshalIndent hostWriteFile).
  vm_compute. reflexivity.
Defined.

(** The catalog of the [users] project. *)
Lemma loadFiles_keys_witness :
  Table.UniqueID usersLoadedTable = "model.shop.users" /\
  forall colName col,
    Table.Columns usersLoadedTable !! colName = Some col ->
    Column.Name col = colName.
Proof.
  apply (loadFiles_keys hostSep asciiToLower slashJoin hostIsNotExist
           hostReadFile (hostUnmarshal usersManifestJSON usersCatalogJSON)
           "." "target" usersLoadedCatalog).
  - vm_compute. reflexivity.
  - reflexivity.
Defined.

(** A directory without [manifest.json]. *)
Lemma load_errors_witness :
  hostLoadFiles usersManifestJSON usersCatalogJSON "." "elsewhere"
  = Done (Catalog.zero, Some (ErrManifestMissing "elsewhere/manifest.json")).
Proof.
  apply (load_errors hostSep asciiToLower slashJoin hostIsNotExist
           hostReadFile (hostUnmarshal usersManifestJSON usersCatalogJSON)
           hostMarshalIndent hostWriteFile "." "elsewhere" "coverage.json"
           CoverageTypeDoc []).
  reflexivity.
Defined.

(** The [users] project filtered by the prefix of its only table. *)
Lemma doCompute_filtered_witness :
  hostDoCompute usersManifestJSON usersCatalogJSON "." "target"
    "coverage.json" CoverageTypeDoc ["models/marts"]
  = Done (writeCoverageReport hostMarshalIndent hostWriteFile
            (computeJSONReport
               (FilterTables hostSep usersLoadedCatalog ["models/marts"])
               CoverageTypeDoc)
            "coverage.json").
Proof.
  apply (proj2 (doCompute_filtered hostSep asciiToLower slashJoin
                  hostIsNotExist hostReadFile
                  (hostUnmarshal usersManifestJSON usersCatalogJSON)
                  hostMarshalIndent hostWriteFile
                  "." "target" "coverage.json" CoverageTypeDoc
                  ["models/marts"] usersLoadedCatalog
                  ltac:(vm_compute; reflexivity) ltac:(discriminate))
           "model.shop.users" usersLoadedTable).
  - reflexivity.
  - vm_compute. reflexivity.
Defined.

(** Two filters applied one after the other, in either order. *)
Lemma FilterTables_composes_witness :
  FilterTables backslash
    (FilterTables backslash pathsCatalog ["models"]) ["models/marts"]
  = FilterTables backslash
      (FilterTables backslash pathsCatalog ["models/marts"]) ["models"] /\
  Catalog.Tables
    (FilterTables backslash
       (FilterTables backslash pathsCatalog ["models"]) ["models/marts"])
    !! "model.shop.a" = Some martsTable.
Proof.
  destruct (FilterTables_composes backslash pathsCatalog
              ["models"] ["models/marts"]) as (Hboth & Hcomm & _).
  split; [exact Hcomm|].
  apply Hboth. split; vm_compute; reflexivity.
Defined.

(** The reconciled [users] catalog annotated once more. *)
Lemma annotateCatalog_fields_witness :
  annotateCatalog smallManifest (annotateCatalog smallManifest usersLoadedCatalog)
  = annotateCatalog smallManifest usersLoadedCatalog /\
  forall t,
    Catalog.Tables (annotateCatalog smallManifest usersLoadedCatalog)
      !! "model.shop.users" = Some t ->
    Table.Name t = "analytics.users".
Proof.
  destruct (annotateCatalog_fields smallManifest usersLoadedCatalog)
    as [Hfields Hidem].
  split; [exact Hidem|].
  intros t Ht. destruct (Hfields _ _ Ht) as (t0 & Ht0 & _ & Hname & _).
  vm_compute in Ht0. injection Ht0 as <-. exact Hname.
Defined.

(** ** Concrete runs on the returned test index *)

(** C2 as stated fails: a [relationships] test whose last dependency is
    the number [7], which is no table identifier, is recorded under the
    empty identifier; and a test with a [test_metadata] block and a
    non-empty dependency list but no column is recorded under no table. *)
Lemma test_recorded_under_empty_identifier :
  (asArray (index (object [("nodes", VArr [VStr "modelA"; VNum 7%float])])
              "nodes")
   = Some [VStr "modelA"; VNum 7%float] /\
   last [VStr "modelA"; VNum 7%float] = Some (VNum 7%float) /\
   exists m,
     ManifestFromNodes hostSep asciiToLower numberedNodes = Done (m, None) /\
     testsForColumn m "" "user_id" = [VObj numberedTestNode] /\
     testsForColumn m "modelA" "user_id" = []) /\
  (is_Some (columnlessTestNode !! "test_metadata") /\
   exists m,
     ManifestFromNodes hostSep asciiToLower columnlessNodes = Done (m, None) /\
     Manifest.Tests m = ∅).
Proof.
  split.
  - split; [reflexivity|]. split; [reflexivity|].
    eexists. split; [vm_compute; reflexivity|].
    split; vm_compute; reflexivity.
  - split; [eexists; reflexivity|].
    eexists. split; [vm_compute; reflexivity|]. reflexivity.
Qed.

(** A [relationships] test depending on [modelA] then [modelB]: the
    returned index has it under [modelB] and not under [modelA]. *)
Lemma test_recorded_under_last_or_first_witness :
  exists m e,
    ManifestFromNodes hostSep asciiToLower relationshipsNodes = Done (m, e) /\
    VObj relationshipsTestNode ∈ testsForColumn m "modelB" "user_id" /\
    VObj relationshipsTestNode ∉ testsForColumn m "modelA" "user_id".
Proof.
  destruct (ManifestFromNodes hostSep asciiToLower relationshipsNodes)
    as [[m e]|] eqn:E; [|vm_compute in E; discriminate].
  exists m, e. split; [reflexivity|].
  assert (Hrec := test_recorded_under_last_or_first hostSep asciiToLower
                    relationshipsNodes m e "test.shop.relationships"
                    relationshipsTestNode
                    (object [("name", VStr "relationships")])
                    (object [("nodes", VArr [VStr "modelA"; VStr "modelB"])])
                    [VStr "modelA"; VStr "modelB"]
                    E eq_refl eq_refl eq_refl eq_refl eq_refl
                    ltac:(discriminate)).
  split.
  - apply Hrec. split; [vm_compute; discriminate|].
    split; reflexivity.
  - intros Hin. apply Hrec in Hin as (_ & Htable & _).
    vm_compute in Htable. discriminate.
Defined.

(** A test whose column is only given by [kwargs.arg] is recorded under
    that column; a test without any column is recorded nowhere. *)
Lemma test_recorded_under_first_nonempty_column_witness :
  (exists m e,
      ManifestFromNodes hostSep asciiToLower argNodes = Done (m, e) /\
      VObj argTestNode ∈ testsForColumn m "modelA" "user_id") /\
  (exists m e,
      ManifestFromNodes hostSep asciiToLower columnlessNodes = Done (m, e) /\
      forall tableID columnName,
        VObj columnlessTestNode ∉ testsForColumn m tableID columnName).
Proof.
  split.
  - destruct (ManifestFromNodes hostSep asciiToLower argNodes)
      as [[m e]|] eqn:E; [|vm_compute in E; discriminate].
    exists m, e. split; [reflexivity|].
    destruct (test_recorded_under_first_nonempty_column hostSep asciiToLower
                argNodes m e "test.shop.not_null" argTestNode
                (object [("name", VStr "not_null");
                         ("kwargs", VObj (object [("arg", VStr "user_id")]))])
                (object [("nodes", VArr [VStr "modelA"])])
                [VStr "modelA"]
                E eq_refl eq_refl eq_refl eq_refl eq_refl
                ltac:(discriminate)) as [Hsome _].
    apply Hsome. vm_compute. discriminate.
  - destruct (ManifestFromNodes hostSep asciiToLower columnlessNodes)
      as [[m e]|] eqn:E; [|vm_compute in E; discriminate].
    exists m, e. split; [reflexivity|].
    destruct (test_recorded_under_first_nonempty_column hostSep asciiToLower
                columnlessNodes m e "test.shop.not_null" columnlessTestNode
                (object [("name", VStr "not_null")])
                (object [("nodes", VArr [VStr "modelA"])])
                [VStr "modelA"]
                E eq_refl eq_refl eq_refl eq_refl eq_refl
                ltac:(discriminate)) as [_ Hnone].
    apply Hnone. reflexivity.
Defined.
